(** * Smart Research Assistant: a shallow embedding of the Python sources

    The development follows the layout of the repository:
    - [Py]                 the fragment of the Python runtime the code relies on
                           (text, values, exceptions, slicing);
    - [Lib]                the library calls the development is parametric in;
    - [DocumentProcessor]  [document_processor.py];
    - [AIAssistant]        [ai_assistant.py];
    - [St]                 Streamlit's session state and messages;
    - [Utils]              [utils.py] ([clear_session_state]);
    - [App]                the upload and question blocks of [app.py];
    - [Doubles]            test doubles and sample data for the examples;
    - [PyFacts], [DocumentProcessorFacts], [AIAssistantFacts], [AppFacts]
                           the properties.

    Python [str] is a sequence of Unicode code points; it is modelled as a
    list of code points ([N]), so that [len], slicing, [strip] and [split]
    count what Python counts. *)

From Stdlib Require Import ZArith NArith Ascii String List Lia.
From Stdlib.Strings Require Import Byte.
From stdpp Require Import base option list strings pretty gmap.

Set Warnings "-register-all".
Local Open Scope N_scope.

(* ===================================================================== *)
(** ** The Python runtime fragment                                        *)
(* ===================================================================== *)

Module Py.

(** A Python [str]: a list of code points. *)
Definition str := list N.

(** An ASCII literal of the source, as a [str]. *)
Definition lit (s : string) : str :=
  List.map N_of_ascii (list_ascii_of_string s).

Definition nl : str := [0x0A].
Definition dq : str := [0x22].

(** [str.isspace] for one code point, as CPython's [_PyUnicode_IsWhitespace]. *)
Definition isspace (c : N) : bool :=
  ((0x09 <=? c) && (c <=? 0x0D)) || ((0x1C <=? c) && (c <=? 0x20))
  || (c =? 0x85) || (c =? 0xA0) || (c =? 0x1680)
  || ((0x2000 <=? c) && (c <=? 0x200A))
  || (c =? 0x2028) || (c =? 0x2029) || (c =? 0x202F) || (c =? 0x205F)
  || (c =? 0x3000).

Fixpoint lstrip (s : str) : str :=
  match s with
  | c :: s' => if isspace c then lstrip s' else s
  | [] => []
  end.

Definition rstrip (s : str) : str := rev (lstrip (rev s)).

(** [s.strip()] *)
Definition strip (s : str) : str := rstrip (lstrip s).

(** [s.split()]: maximal runs of non-whitespace, [cur] is the run being
    read (reversed). *)
Fixpoint split_ws_from (cur s : str) : list str :=
  match s with
  | [] => match cur with [] => [] | _ => [rev cur] end
  | c :: s' =>
      if isspace c
      then match cur with
           | [] => split_ws_from [] s'
           | _ => rev cur :: split_ws_from [] s'
           end
      else split_ws_from (c :: cur) s'
  end.

Definition split_ws (s : str) : list str := split_ws_from [] s.

Fixpoint startswith (p s : str) : bool :=
  match p, s with
  | [], _ => true
  | a :: p', b :: s' => (a =? b) && startswith p' s'
  | _ :: _, [] => false
  end.

(** [s.split(sep)] for a non-empty [sep]: leftmost non-overlapping
    occurrences; [skip] counts the code points of a matched separator that
    are still to be passed over. *)
Fixpoint split_from (sep : str) (skip : nat) (cur s : str) : list str :=
  match s with
  | [] => [rev cur]
  | c :: s' =>
      match skip with
      | S k => split_from sep k cur s'
      | O =>
          if startswith sep s
          then rev cur :: split_from sep (length sep - 1) [] s'
          else split_from sep 0 (c :: cur) s'
      end
  end.

Definition split (s sep : str) : list str := split_from sep 0 [] s.

(** [sep.join(pieces)] *)
Fixpoint join (sep : str) (pieces : list str) : str :=
  match pieces with
  | [] => []
  | p :: rest =>
      match rest with
      | [] => p
      | _ => p ++ sep ++ join sep rest
      end
  end.

(** [bool(s)] for a [str]. *)
Definition truthy_str (s : str) : bool :=
  match s with [] => false | _ => true end.

(** [l[:n]] for every integer [n] (a negative [n] counts from the end). *)
Definition slice_to {A} (l : list A) (n : Z) : list A :=
  if (0 <=? n)%Z then take (Z.to_nat n) l
  else take (length l - Z.to_nat (- n)) l.

(** [l[n:]] for every integer [n]. *)
Definition slice_from {A} (l : list A) (n : Z) : list A :=
  if (0 <=? n)%Z then drop (Z.to_nat n) l
  else drop (length l - Z.to_nat (- n)) l.

(** [str(n)] for an integer. *)
Definition str_of_Z (n : Z) : str := lit (pretty n).

(** *** Values *)

(** A Python [float], as far as the code observes one: it is compared with
    an integer. Finite floats are dyadic rationals [m * 2^e]. *)
Inductive pyfloat :=
| FNan
| FInf (negative : bool)
| FDyadic (m e : Z).

(** [f < n] for a float [f] and an integer [n] (Python compares exactly). *)
Definition float_lt_int (f : pyfloat) (n : Z) : bool :=
  match f with
  | FNan => false
  | FInf negative => negative
  | FDyadic m e =>
      if (0 <=? e)%Z then (m * 2 ^ e <? n)%Z else (m <? n * 2 ^ (- e))%Z
  end.

(** The values [json.loads] produces, which are also the values the session
    stores. A [dict] keeps its items in insertion order. *)
Inductive pyval :=
| PNone
| PBool (b : bool)
| PInt (z : Z)
| PFloat (f : pyfloat)
| PStr (s : str)
| PList (l : list pyval)
| PDict (d : list (pyval * pyval)).

(** *** Exceptions *)

(** The subclasses of [Exception] that occur; [OtherError] stands for any
    further subclass a library raises ([json.JSONDecodeError], the API
    client's errors, the PDF reader's errors). *)
Inductive exn_class :=
| KeyError | TypeError | AttributeError | IndexError | UnicodeDecodeError
| OtherError.

(** An exception object: [Exception msg] is what the source itself raises,
    [Builtin cls msg] what the interpreter or a library raises, [msg] being
    [str(e)]. *)
Inductive exn :=
| Exception (msg : str)
| Builtin (cls : exn_class) (msg : str).

(** [str(e)] *)
Definition str_of_exn (e : exn) : str :=
  match e with
  | Exception msg => msg
  | Builtin _ msg => msg
  end.

(** How a statement ends: normally, by an exception derived from
    [Exception], or by Streamlit's [RerunException], which derives from
    [BaseException] and so passes through [except Exception]. *)
Inductive outcome (A : Type) :=
| Ok (a : A)
| Raise (e : exn)
| Rerun.
Arguments Ok {A} a.
Arguments Raise {A} e.
Arguments Rerun {A}.

(** *** Statements: state passing with exceptions *)

Definition M (S A : Type) : Type := S -> outcome A * S.

Definition ret {S A} (a : A) : M S A := fun s => (Ok a, s).

Definition bind {S A B} (m : M S A) (k : A -> M S B) : M S B :=
  fun s =>
    match m s with
    | (Ok a, s') => k a s'
    | (Raise e, s') => (Raise e, s')
    | (Rerun, s') => (Rerun, s')
    end.

Definition raise {S A} (e : exn) : M S A := fun s => (Raise e, s).

Definition get {S} : M S S := fun s => (Ok s, s).
Definition put {S} (s : S) : M S unit := fun _ => (Ok tt, s).
Definition modify {S} (f : S -> S) : M S unit := fun s => (Ok tt, f s).

(** [try: body  except Exception as e: handler e] *)
Definition try_except {S A} (body : M S A) (handler : exn -> M S A) : M S A :=
  fun s =>
    match body s with
    | (Raise e, s') => handler e s'
    | r => r
    end.

(** Sequencing of computations that act on no state. *)
Definition and_then {A B} (o : outcome A) (k : A -> outcome B) : outcome B :=
  match o with
  | Ok a => k a
  | Raise e => Raise e
  | Rerun => Rerun
  end.

(** A pure computation that may raise. *)
Definition lift_outcome {S A} (o : outcome A) : M S A := fun s => (o, s).

(** Run a statement over a component [T] of the state [S]. *)
Definition zoom {S T A} (proj : S -> T) (upd : T -> S -> S) (m : M T A) : M S A :=
  fun s => let (r, t') := m (proj s) in (r, upd t' s).

Declare Scope py_scope.
Delimit Scope py_scope with py.
Notation "x <- m ;; k" := (bind m (fun x => k))
  (at level 100, m at next level, right associativity) : py_scope.
Notation "m ;;; k" := (bind m (fun _ => k))
  (at level 100, right associativity) : py_scope.

(** *** Operations on values *)

Definition key_is (k : str) (v : pyval) : bool :=
  match v with
  | PStr s => bool_decide (s = k)
  | _ => false
  end.

(** [d[k]] for a dict [d] given by its items and a [str] key. *)
Fixpoint dict_lookup (d : list (pyval * pyval)) (k : str) : option pyval :=
  match d with
  | [] => None
  | (k', v) :: d' => if key_is k k' then Some v else dict_lookup d' k
  end.

(** [v[k]] for a [str] key [k]. *)
Definition getitem_str (v : pyval) (k : str) : outcome pyval :=
  match v with
  | PDict d =>
      match dict_lookup d k with
      | Some x => Ok x
      | None => Raise (Builtin KeyError (lit "'" ++ k ++ lit "'"))
      end
  | PList _ =>
      Raise (Builtin TypeError (lit "list indices must be integers or slices, not str"))
  | PStr _ =>
      Raise (Builtin TypeError (lit "string indices must be integers, not 'str'"))
  | PNone => Raise (Builtin TypeError (lit "'NoneType' object is not subscriptable"))
  | PBool _ => Raise (Builtin TypeError (lit "'bool' object is not subscriptable"))
  | PInt _ => Raise (Builtin TypeError (lit "'int' object is not subscriptable"))
  | PFloat _ => Raise (Builtin TypeError (lit "'float' object is not subscriptable"))
  end.

(** [v.get(k, default)]: only a dict has the method. *)
Definition dict_get (v : pyval) (k : str) (default : pyval) : outcome pyval :=
  match v with
  | PDict d =>
      match dict_lookup d k with
      | Some x => Ok x
      | None => Ok default
      end
  | PList _ => Raise (Builtin AttributeError (lit "'list' object has no attribute 'get'"))
  | PStr _ => Raise (Builtin AttributeError (lit "'str' object has no attribute 'get'"))
  | PNone => Raise (Builtin AttributeError (lit "'NoneType' object has no attribute 'get'"))
  | PBool _ => Raise (Builtin AttributeError (lit "'bool' object has no attribute 'get'"))
  | PInt _ => Raise (Builtin AttributeError (lit "'int' object has no attribute 'get'"))
  | PFloat _ => Raise (Builtin AttributeError (lit "'float' object has no attribute 'get'"))
  end.

(** [iter(v)], as the list of the values the iteration yields. *)
Definition iterate (v : pyval) : outcome (list pyval) :=
  match v with
  | PList l => Ok l
  | PDict d => Ok (List.map fst d)
  | PStr s => Ok (List.map (fun c => PStr [c]) s)
  | PNone => Raise (Builtin TypeError (lit "'NoneType' object is not iterable"))
  | PBool _ => Raise (Builtin TypeError (lit "'bool' object is not iterable"))
  | PInt _ => Raise (Builtin TypeError (lit "'int' object is not iterable"))
  | PFloat _ => Raise (Builtin TypeError (lit "'float' object is not iterable"))
  end.

(** [i < n] for a value [i] and an integer [n]. *)
Definition lt_int (i : pyval) (n : Z) : outcome bool :=
  match i with
  | PInt z => Ok (z <? n)%Z
  | PBool b => Ok ((if b then 1 else 0) <? n)%Z
  | PFloat f => Ok (float_lt_int f n)
  | PNone => Raise (Builtin TypeError (lit "'<' not supported between instances of 'NoneType' and 'int'"))
  | PStr _ => Raise (Builtin TypeError (lit "'<' not supported between instances of 'str' and 'int'"))
  | PList _ => Raise (Builtin TypeError (lit "'<' not supported between instances of 'list' and 'int'"))
  | PDict _ => Raise (Builtin TypeError (lit "'<' not supported between instances of 'dict' and 'int'"))
  end.

(** [l[z]] for an integer [z]: a negative [z] counts from the end. *)
Definition index_int {A} (l : list A) (z : Z) : outcome A :=
  let n := Z.of_nat (length l) in
  let pos := if (z <? 0)%Z then (z + n)%Z else z in
  if ((0 <=? pos) && (pos <? n))%Z
  then match l !! Z.to_nat pos with
       | Some x => Ok x
       | None => Raise (Builtin IndexError (lit "list index out of range"))
       end
  else Raise (Builtin IndexError (lit "list index out of range")).

(** [l[i]] for a value [i]. *)
Definition getitem_list {A} (l : list A) (i : pyval) : outcome A :=
  match i with
  | PInt z => index_int l z
  | PBool b => index_int l (if b then 1 else 0)%Z
  | PFloat _ => Raise (Builtin TypeError (lit "list indices must be integers or slices, not float"))
  | PNone => Raise (Builtin TypeError (lit "list indices must be integers or slices, not NoneType"))
  | PStr _ => Raise (Builtin TypeError (lit "list indices must be integers or slices, not str"))
  | PList _ => Raise (Builtin TypeError (lit "list indices must be integers or slices, not list"))
  | PDict _ => Raise (Builtin TypeError (lit "list indices must be integers or slices, not dict"))
  end.

(** [bool(v)] *)
Definition truthy (v : pyval) : bool :=
  match v with
  | PNone => false
  | PBool b => b
  | PInt z => negb (z =? 0)%Z
  | PFloat FNan => true
  | PFloat (FInf _) => true
  | PFloat (FDyadic m _) => negb (m =? 0)%Z
  | PStr s => truthy_str s
  | PList l => match l with [] => false | _ => true end
  | PDict d => match d with [] => false | _ => true end
  end.

(** [s.replace(old, "")] for a one-character [old]. *)
Definition remove_char (old : N) (s : str) : str :=
  List.filter (fun c => negb (c =? old)) s.

End Py.

(* ===================================================================== *)
(** ** Library code the sources call                                      *)
(* ===================================================================== *)

(** The behaviour of the libraries behind the calls of the sources is not
    part of the repository; the development is parametric in it. A library
    call either returns or raises a subclass of [Exception]. *)
Module Lib.
Import Py.

Definition fallible (A : Type) : Type := exn + A.

Definition outcome_of {A} (r : fallible A) : outcome A :=
  match r with
  | inl e => Raise e
  | inr a => Ok a
  end.

Class Externals := {
  (** [json.loads(s)] *)
  json_loads : str -> fallible pyval;
  (** [json.dumps(l, indent=2)] for a list of [str] *)
  json_dumps_indent2 : list str -> str;
  (** [str(v)] for a value that is not itself a [str] *)
  format_other : pyval -> str;
  (** [s.lower()] *)
  str_lower : str -> str;
  (** [b.decode('utf-8')], [None] for [UnicodeDecodeError] *)
  decode_utf8 : list byte -> option str;
  (** [b.decode('utf-16')] *)
  decode_utf16 : list byte -> option str;
  (** [b.decode('cp1252')] *)
  decode_cp1252 : list byte -> option str;
  (** [pdfplumber.open(io.BytesIO(b))] followed by [page.extract_text()] on
      each page, in page order; a page without text gives [None] *)
  pdf_page_texts : list byte -> fallible (list (option str));
}.

(** [format(v)] as an f-string placeholder does. *)
Definition format_value `{Externals} (v : pyval) : str :=
  match v with
  | PStr s => s
  | _ => format_other v
  end.

End Lib.

(* ===================================================================== *)
(** ** document_processor.py                                              *)
(* ===================================================================== *)

Module DocumentProcessor.
Import Py Lib.
Local Open Scope py_scope.

(** Streamlit's [UploadedFile]: a named in-memory byte stream with a read
    position. *)
Record UploadedFile := {
  name : str;
  data : list byte;
  pos : nat;
}.

(** [uploaded_file.read()] *)
Definition read : M UploadedFile (list byte) :=
  fun f =>
    (Ok (drop (pos f) (data f)),
     {| name := name f; data := data f; pos := Nat.max (pos f) (length (data f)) |}).

(** [uploaded_file.seek(n)] *)
Definition seek (n : nat) : M UploadedFile unit :=
  fun f => (Ok tt, {| name := name f; data := data f; pos := n |}).

Inductive encoding := Utf8 | Utf16 | Latin1 | Cp1252.

Section WithExternals.
Context `{Externals}.

(** [b.decode(encoding)]; latin-1 maps every byte to the code point of the
    same number. *)
Definition decode (enc : encoding) (b : list byte) : option str :=
  match enc with
  | Utf8 => decode_utf8 b
  | Utf16 => decode_utf16 b
  | Latin1 => Some (List.map Byte.to_N b)
  | Cp1252 => decode_cp1252 b
  end.

(** The page loop of [_extract_pdf_text]. *)
Fixpoint pdf_pages_loop (page_num : nat) (pages : list (option str))
    (text_content : str) : str :=
  match pages with
  | [] => text_content
  | page_text :: rest =>
      let text_content' :=
        match page_text with
        | Some t =>
            if truthy_str t
            then (text_content
                    ++ (nl ++ lit "--- Page " ++ str_of_Z (Z.of_nat page_num)
                           ++ lit " ---" ++ nl))
                   ++ (t ++ nl)
            else text_content
        | None => text_content
        end in
      pdf_pages_loop (S page_num) rest text_content'
  end.

Definition _extract_pdf_text : M UploadedFile str :=
  try_except
    (pdf_bytes <- read ;;
     pages <- lift_outcome (outcome_of (pdf_page_texts pdf_bytes)) ;;
     let text_content := pdf_pages_loop 1 pages [] in
     if negb (truthy_str (strip text_content))
     then raise (Exception (lit "No text content found in PDF. The file might be image-based or corrupted."))
     else ret (strip text_content))
    (fun e => raise (Exception (lit "PDF extraction failed: " ++ str_of_exn e))).

Definition encodings : list encoding := [Utf8; Utf16; Latin1; Cp1252].

(** The loop over the encodings of [_extract_txt_text]: a
    [UnicodeDecodeError] moves on to the next encoding, every other
    exception leaves the loop. *)
Fixpoint txt_encodings_loop (encs : list encoding) : M UploadedFile str :=
  match encs with
  | [] =>
      raise (Exception (lit "Unable to decode text file. Please ensure it's a valid text file with proper encoding."))
  | enc :: rest =>
      seek 0 ;;;
      b <- read ;;
      match decode enc b with
      | None => txt_encodings_loop rest
      | Some text_content =>
          if negb (truthy_str (strip text_content))
          then raise (Exception (lit "The text file appears to be empty."))
          else ret (strip text_content)
      end
  end.

Definition _extract_txt_text : M UploadedFile str :=
  try_except
    (txt_encodings_loop encodings)
    (fun e => raise (Exception (lit "TXT extraction failed: " ++ str_of_exn e))).

(** Vocabulary for the outcome of [_extract_txt_text]. *)
Definition empty_file_message : str := lit "The text file appears to be empty.".
Definition undecodable_message : str :=
  lit "Unable to decode text file. Please ensure it's a valid text file with proper encoding.".
Definition txt_failed (msg : str) : exn :=
  Exception (lit "TXT extraction failed: " ++ msg).

(** What [_extract_txt_text] makes of a decoded text. *)
Definition txt_result (text_content : str) : outcome str :=
  if truthy_str (strip text_content) then Ok (strip text_content)
  else Raise (txt_failed empty_file_message).

(** The first of utf-8, utf-16 and latin-1 that decodes the bytes. *)
Definition first_decoding (b : list byte) : encoding * str :=
  match decode Utf8 b with
  | Some t => (Utf8, t)
  | None =>
      match decode Utf16 b with
      | Some t => (Utf16, t)
      | None => (Latin1, List.map Byte.to_N b)
      end
  end.

(** [DocumentProcessor.extract_text] *)
Definition extract_text : M UploadedFile str :=
  try_except
    (uploaded_file <- get ;;
     file_extension <-
       lift_outcome (index_int (split (str_lower (name uploaded_file)) (lit ".")) (-1)) ;;
     if bool_decide (file_extension = lit "pdf") then _extract_pdf_text
     else if bool_decide (file_extension = lit "txt") then _extract_txt_text
     else raise (Exception (lit "Unsupported file format: " ++ file_extension
                              ++ lit ". Please upload PDF or TXT files only.")))
    (fun e => raise (Exception (lit "Failed to extract text from document: " ++ str_of_exn e))).

End WithExternals.

(** Vocabulary for the pages of a PDF: a page without text, and what a
    page at position [page_num] adds to the text. *)
Definition is_blank (page_text : option str) : bool :=
  match page_text with
  | Some t => negb (truthy_str t)
  | None => true
  end.

Definition page_block (page_num : nat) (page_text : option str) : str :=
  match page_text with
  | Some t =>
      if truthy_str t
      then (nl ++ lit "--- Page " ++ str_of_Z (Z.of_nat page_num) ++ lit " ---" ++ nl)
             ++ (t ++ nl)
      else []
  | None => []
  end.

(** [DocumentProcessor.validate_document_content] *)
Definition validate_document_content (text : str) : bool :=
  if negb (truthy_str text) || (length (strip text) <? 100)%nat then false
  else
    let word_count := length (split_ws text) in
    if (word_count <? 50)%nat then false else true.

(** The dict [get_document_stats] returns, by its keys. *)
Record document_stats := {
  lines : nat;
  words : nat;
  characters : nat;
  characters_no_spaces : nat;
  estimated_reading_time : nat;
}.

(** [DocumentProcessor.get_document_stats] *)
Definition get_document_stats (text : str) : document_stats :=
  let lines := split text nl in
  let words := split_ws text in
  let characters := length text in
  {| lines := length lines;
     words := length words;
     characters := characters;
     characters_no_spaces := length (remove_char 0x20 text);
     estimated_reading_time := Nat.max 1 (length words / 200) |}.

End DocumentProcessor.

(* ===================================================================== *)
(** ** ai_assistant.py                                                    *)
(* ===================================================================== *)

Module AIAssistant.
Import Py Lib.
Local Open Scope py_scope.

(** The arguments of one [client.chat.completions.create] call. *)
Record request := {
  model : str;
  system_content : str;
  user_content : str;
  max_tokens : option Z;
  (** the temperature literal, in tenths *)
  temperature_tenths : Z;
  (** the call asks for a JSON object as response format *)
  json_object : bool;
}.

(** What a call does: it raises (the call itself, or reading
    [response.choices[0].message.content]), or it gives the content, which
    the API allows to be [None]. *)
Inductive reply :=
| ApiError (e : exn)
| Content (c : option str).

(** One entry of the conversation history, as [app.py] builds it. *)
Record qa_entry := {
  question : str;
  answer : pyval;
  citation : pyval;
}.

Section WithRemote.
Context `{Externals}.

(** The remote model: its reply may depend on everything sent so far. *)
Variable remote : list request -> request -> reply.

(** The state of the client is the list of the requests sent, oldest first:
    one entry for each call of [create]. What the client library does
    underneath one call (connections, attempts of its own) is not
    modelled. *)
Definition chat_completions_create (req : request) : M (list request) (option str) :=
  fun sent =>
    (match remote sent req with
     | ApiError e => Raise e
     | Content c => Ok c
     end,
     sent ++ [req]).

Definition gpt_4o : str := lit "gpt-4o".

(** [json.loads(response.choices[0].message.content)] *)
Definition loads_content (content : option str) : outcome pyval :=
  match content with
  | Some s => outcome_of (json_loads s)
  | None =>
      Raise (Builtin TypeError
               (lit "the JSON object must be str, bytes or bytearray, not NoneType"))
  end.

(** *** generate_summary *)

Definition summary_prompt (document_text : str) : str :=
  nl ++
  lit "            Please provide a concise summary of the following document in no more than 150 words." ++
  nl ++ lit "            Focus on the main themes, key arguments, and important findings." ++ nl ++
  lit "            Make the summary informative and well-structured." ++ nl ++
  lit "            " ++ nl ++ lit "            Document content:" ++ nl ++ lit "            " ++
  slice_to document_text 8000 ++ lit "  # Truncate for API limits" ++ nl ++ lit "            ".

(** The text of the prompt of [generate_summary] before the document. *)
Definition summary_prompt_before : str :=
  nl ++
  lit "            Please provide a concise summary of the following document in no more than 150 words." ++
  nl ++ lit "            Focus on the main themes, key arguments, and important findings." ++ nl ++
  lit "            Make the summary informative and well-structured." ++ nl ++
  lit "            " ++ nl ++ lit "            Document content:" ++ nl ++ lit "            ".

(** The text of the prompt of [generate_summary] after the document. *)
Definition summary_prompt_after : str :=
  lit "  # Truncate for API limits" ++ nl ++ lit "            ".

Definition summary_request (document_text : str) : request :=
  {| model := gpt_4o;
     system_content := lit "You are an expert document analyst. Create clear, concise summaries that capture the essence of academic and professional documents.";
     user_content := summary_prompt document_text;
     max_tokens := Some 200%Z;
     temperature_tenths := 3;
     json_object := false |}.

Definition generate_summary (document_text : str) : M (list request) str :=
  try_except
    (content <- chat_completions_create (summary_request document_text) ;;
     match content with
     | Some c => ret (strip c)
     | None =>
         raise (Builtin AttributeError (lit "'NoneType' object has no attribute 'strip'"))
     end)
    (fun e => raise (Exception (lit "Failed to generate summary: " ++ str_of_exn e))).

(** *** answer_question *)

(** What one step of the loop over the history appends to [context]. *)
Definition qa_lines (qa : qa_entry) : str :=
  lit "Q: " ++ question qa ++ nl ++ lit "A: " ++ format_value (answer qa) ++ nl ++ nl.

Definition build_context (conversation_history : list qa_entry) : str :=
  match conversation_history with
  | [] => []
  | _ =>
      fold_left (fun context qa => context ++ qa_lines qa)
        (slice_from conversation_history (-3))
        (lit "Previous conversation:" ++ nl)
  end.

Definition answer_prompt (context document_text question : str) : str :=
  nl ++
  lit "            You are an expert document analyst. Answer the user's question based ONLY on the provided document content." ++
  nl ++ lit "            " ++ nl ++ lit "            Important guidelines:" ++ nl ++
  lit "            1. Base your answer strictly on the document content provided" ++ nl ++
  lit "            2. Do not add information from your general knowledge" ++ nl ++
  lit "            3. If the answer cannot be found in the document, clearly state this" ++ nl ++
  lit "            4. Provide specific references to support your answer" ++ nl ++
  lit "            5. Be thorough but concise" ++ nl ++ lit "            " ++ nl ++
  lit "            " ++ context ++ nl ++ lit "            " ++ nl ++
  lit "            Document content:" ++ nl ++ lit "            " ++ document_text ++ nl ++
  lit "            " ++ nl ++ lit "            User question: " ++ question ++ nl ++
  lit "            " ++ nl ++
  lit "            Please respond in JSON format with the following structure:" ++ nl ++
  lit "            {" ++ nl ++ lit "                " ++ dq ++ lit "answer" ++ dq ++ lit ": " ++
  dq ++ lit "Your detailed answer based on the document" ++ dq ++ lit "," ++ nl ++
  lit "                " ++ dq ++ lit "citation" ++ dq ++ lit ": " ++ dq ++
  lit "Specific reference to the document section/paragraph that supports this answer" ++ dq ++
  lit "," ++ nl ++ lit "                " ++ dq ++ lit "confidence" ++ dq ++ lit ": " ++ dq ++
  lit "high/medium/low based on how directly the document addresses the question" ++ dq ++ nl ++
  lit "            }" ++ nl ++ lit "            ".

(** The text of the prompt of [answer_question] before the context. *)
Definition answer_prompt_before : str :=
  nl ++
  lit "            You are an expert document analyst. Answer the user's question based ONLY on the provided document content." ++
  nl ++ lit "            " ++ nl ++ lit "            Important guidelines:" ++ nl ++
  lit "            1. Base your answer strictly on the document content provided" ++ nl ++
  lit "            2. Do not add information from your general knowledge" ++ nl ++
  lit "            3. If the answer cannot be found in the document, clearly state this" ++ nl ++
  lit "            4. Provide specific references to support your answer" ++ nl ++
  lit "            5. Be thorough but concise" ++ nl ++ lit "            " ++ nl ++
  lit "            ".

(** The text of the prompt of [answer_question] after the context. *)
Definition answer_prompt_after (document_text question : str) : str :=
  nl ++ lit "            " ++ nl ++ lit "            Document content:" ++ nl ++
  lit "            " ++ document_text ++ nl ++ lit "            " ++ nl ++
  lit "            User question: " ++ question ++ nl ++ lit "            " ++ nl ++
  lit "            Please respond in JSON format with the following structure:" ++ nl ++
  lit "            {" ++ nl ++ lit "                " ++ dq ++ lit "answer" ++ dq ++ lit ": " ++
  dq ++ lit "Your detailed answer based on the document" ++ dq ++ lit "," ++ nl ++
  lit "                " ++ dq ++ lit "citation" ++ dq ++ lit ": " ++ dq ++
  lit "Specific reference to the document section/paragraph that supports this answer" ++ dq ++
  lit "," ++ nl ++ lit "                " ++ dq ++ lit "confidence" ++ dq ++ lit ": " ++ dq ++
  lit "high/medium/low based on how directly the document addresses the question" ++ dq ++ nl ++
  lit "            }" ++ nl ++ lit "            ".

Definition answer_request (question document_text : str)
    (conversation_history : list qa_entry) : request :=
  {| model := gpt_4o;
     system_content := lit "You are a precise document analyst. Always ground your responses in the provided text and include specific citations.";
     user_content :=
       answer_prompt (build_context conversation_history) document_text question;
     max_tokens := None;
     temperature_tenths := 2;
     json_object := true |}.

Definition answer_question (question document_text : str)
    (conversation_history : list qa_entry) : M (list request) pyval :=
  try_except
    (content <-
       chat_completions_create (answer_request question document_text conversation_history) ;;
     result <- lift_outcome (loads_content content) ;;
     ret result)
    (fun e => raise (Exception (lit "Failed to answer question: " ++ str_of_exn e))).

(** Vocabulary for replies: [v[k]] evaluates, and a reply is malformed
    when it is not JSON or lacks one of the keys [app.py] reads. *)
Definition has_key (v : pyval) (k : str) : bool :=
  match getitem_str v k with
  | Ok _ => true
  | _ => false
  end.

Definition malformed_reply (content : option str) : bool :=
  match loads_content content with
  | Ok v => negb (has_key v (lit "answer") && has_key v (lit "citation"))
  | _ => true
  end.

(** *** extract_relevant_passages *)

(** [[chunk.strip() for chunk in document_text.split('\n\n')
      if len(chunk.strip()) > 50]] *)
Definition chunks_of (document_text : str) : list str :=
  List.map strip
    (List.filter (fun chunk => (50 <? length (strip chunk))%nat)
       (split document_text (nl ++ nl))).

Definition passages_prompt (question : str) (chunks : list str) (num_passages : Z) : str :=
  nl ++ lit "            Given the following question and document chunks, identify the " ++
  str_of_Z num_passages ++ lit " most relevant chunks that would help answer the question." ++
  nl ++ lit "            " ++ nl ++ lit "            Question: " ++ question ++ nl ++
  lit "            " ++ nl ++ lit "            Document chunks:" ++ nl ++ lit "            " ++
  json_dumps_indent2 (slice_to chunks 20) ++ lit "  # Limit for API" ++ nl ++ lit "            " ++
  nl ++ lit "            Please respond in JSON format:" ++ nl ++ lit "            {" ++ nl ++
  lit "                " ++ dq ++ lit "relevant_chunk_indices" ++ dq ++ lit ": [0, 5, 12]" ++ nl ++
  lit "            }" ++ nl ++ lit "            " ++ nl ++
  lit "            Return the indices of the most relevant chunks in order of relevance." ++ nl ++
  lit "            ".

Definition passages_request (question : str) (chunks : list str) (num_passages : Z)
    : request :=
  {| model := gpt_4o;
     system_content := lit "You are an expert at identifying relevant text passages for question answering.";
     user_content := passages_prompt question chunks num_passages;
     max_tokens := None;
     temperature_tenths := 1;
     json_object := true |}.

(** [[chunks[i] for i in indices if i < len(chunks)]], over the values the
    iteration of [indices] yields. *)
Fixpoint select_chunks (chunks : list str) (indices : list pyval) : outcome (list str) :=
  match indices with
  | [] => Ok []
  | i :: rest =>
      match lt_int i (Z.of_nat (length chunks)) with
      | Ok true =>
          match getitem_list chunks i with
          | Ok c =>
              match select_chunks chunks rest with
              | Ok l => Ok (c :: l)
              | r => r
              end
          | Raise e => Raise e
          | Rerun => Rerun
          end
      | Ok false => select_chunks chunks rest
      | Raise e => Raise e
      | Rerun => Rerun
      end
  end.

(** Lines 288-291: the reply is parsed and the indices it holds are mapped
    back to chunks. *)
Definition rank_reply (chunks : list str) (content : option str) : outcome (list str) :=
  and_then (loads_content content) (fun result =>
  and_then (dict_get result (lit "relevant_chunk_indices") (PList [])) (fun indices =>
  and_then (iterate indices) (fun items =>
  select_chunks chunks items))).

Definition extract_relevant_passages (question document_text : str) (num_passages : Z)
    : M (list request) (list str) :=
  try_except
    (let chunks := chunks_of document_text in
     if (Z.of_nat (length chunks) <=? num_passages)%Z then ret chunks
     else
       content <- chat_completions_create (passages_request question chunks num_passages) ;;
       lift_outcome (rank_reply chunks content))
    (fun _ =>
       let chunks := chunks_of document_text in
       ret (slice_to chunks num_passages)).

(** *** generate_challenge_questions *)

Definition challenge_prompt (document_text : str) : str :=
  nl ++
  lit "            Based on the provided document, generate exactly 3 challenging questions that test deep comprehension and logical reasoning." ++
  nl ++ lit "            " ++ nl ++ lit "            Question requirements:" ++ nl ++
  lit "            1. Questions should require analysis, inference, or synthesis of information" ++
  nl ++ lit "            2. Avoid simple factual recall questions" ++ nl ++
  lit "            3. Focus on relationships, implications, and deeper understanding" ++ nl ++
  lit "            4. Each question should have a clear, document-based answer" ++ nl ++
  lit "            5. Questions should cover different aspects/sections of the document" ++ nl ++
  lit "            " ++ nl ++ lit "            Document content:" ++ nl ++ lit "            " ++
  document_text ++ nl ++ lit "            " ++ nl ++
  lit "            Please respond in JSON format with the following structure:" ++ nl ++
  lit "            {" ++ nl ++ lit "                " ++ dq ++ lit "questions" ++ dq ++
  lit ": [" ++ nl ++ lit "                    {" ++ nl ++ lit "                        " ++ dq ++
  lit "question" ++ dq ++ lit ": " ++ dq ++ lit "The challenging question text" ++ dq ++ lit "," ++
  nl ++ lit "                        " ++ dq ++ lit "expected_answer" ++ dq ++ lit ": " ++ dq ++
  lit "Detailed expected answer based on the document" ++ dq ++ lit "," ++ nl ++
  lit "                        " ++ dq ++ lit "reasoning_required" ++ dq ++ lit ": " ++ dq ++
  lit "Brief description of the type of reasoning needed" ++ dq ++ nl ++
  lit "                    }" ++ nl ++ lit "                ]" ++ nl ++ lit "            }" ++
  nl ++ lit "            ".

Definition challenge_request (document_text : str) : request :=
  {| model := gpt_4o;
     system_content := lit "You are an expert educator who creates challenging comprehension questions that test critical thinking and document understanding.";
     user_content := challenge_prompt document_text;
     max_tokens := None;
     temperature_tenths := 4;
     json_object := true |}.

Definition generate_challenge_questions (document_text : str)
    : M (list request) pyval :=
  try_except
    (content <- chat_completions_create (challenge_request document_text) ;;
     result <- lift_outcome (loads_content content) ;;
     lift_outcome (getitem_str result (lit "questions")))
    (fun e =>
       raise (Exception (lit "Failed to generate challenge questions: " ++ str_of_exn e))).

(** *** evaluate_answer *)

(** [question] and [expected_answer] are what [app.py] reads out of a
    stored challenge question; the prompt formats them as an f-string
    does. *)
Definition evaluation_prompt (question : pyval) (user_answer : str) (expected_answer : pyval)
    (document_text : str) : str :=
  nl ++
  lit "            Evaluate the user's answer to the question based on the document content." ++
  nl ++ lit "            " ++ nl ++ lit "            Question: " ++ format_value question ++ nl ++
  lit "            " ++ nl ++ lit "            User's Answer: " ++ user_answer ++ nl ++
  lit "            " ++ nl ++ lit "            Expected Answer: " ++
  format_value expected_answer ++ nl ++ lit "            " ++ nl ++
  lit "            Document content (for reference):" ++ nl ++ lit "            " ++
  slice_to document_text 6000 ++ lit "  # Truncate for API limits" ++ nl ++ lit "            " ++
  nl ++ lit "            Evaluation criteria:" ++ nl ++
  lit "            1. Accuracy: How well does the answer align with document content?" ++ nl ++
  lit "            2. Completeness: Does it address all aspects of the question?" ++ nl ++
  lit "            3. Understanding: Does it demonstrate comprehension of key concepts?" ++ nl ++
  lit "            4. Evidence: Is the answer supported by document content?" ++ nl ++
  lit "            " ++ nl ++ lit "            Please respond in JSON format:" ++ nl ++
  lit "            {" ++ nl ++ lit "                " ++ dq ++ lit "score" ++ dq ++ lit ": 85," ++
  nl ++ lit "                " ++ dq ++ lit "feedback" ++ dq ++ lit ": " ++ dq ++
  lit "Detailed feedback explaining the evaluation" ++ dq ++ lit "," ++ nl ++
  lit "                " ++ dq ++ lit "strengths" ++ dq ++ lit ": " ++ dq ++
  lit "What the user did well" ++ dq ++ lit "," ++ nl ++ lit "                " ++ dq ++
  lit "areas_for_improvement" ++ dq ++ lit ": " ++ dq ++ lit "What could be better" ++ dq ++
  lit "," ++ nl ++ lit "                " ++ dq ++ lit "citation" ++ dq ++ lit ": " ++ dq ++
  lit "Document reference that supports the correct answer" ++ dq ++ nl ++ lit "            }" ++
  nl ++ lit "            " ++ nl ++ lit "            Score should be 0-100, where:" ++ nl ++
  lit "            - 90-100: Excellent, comprehensive understanding" ++ nl ++
  lit "            - 80-89: Good understanding with minor gaps" ++ nl ++
  lit "            - 70-79: Adequate understanding but missing key points" ++ nl ++
  lit "            - 60-69: Basic understanding but significant gaps" ++ nl ++
  lit "            - Below 60: Poor understanding or major inaccuracies" ++ nl ++
  lit "            ".

(** The text of the prompt of [evaluate_answer] before the document. *)
Definition evaluation_prompt_before (question : pyval) (user_answer : str) (expected_answer : pyval) : str :=
  nl ++
  lit "            Evaluate the user's answer to the question based on the document content." ++
  nl ++ lit "            " ++ nl ++ lit "            Question: " ++ format_value question ++ nl ++
  lit "            " ++ nl ++ lit "            User's Answer: " ++ user_answer ++ nl ++
  lit "            " ++ nl ++ lit "            Expected Answer: " ++
  format_value expected_answer ++ nl ++ lit "            " ++ nl ++
  lit "            Document content (for reference):" ++ nl ++ lit "            ".

(** The text of the prompt of [evaluate_answer] after the document. *)
Definition evaluation_prompt_after : str :=
  lit "  # Truncate for API limits" ++ nl ++ lit "            " ++ nl ++
  lit "            Evaluation criteria:" ++ nl ++
  lit "            1. Accuracy: How well does the answer align with document content?" ++ nl ++
  lit "            2. Completeness: Does it address all aspects of the question?" ++ nl ++
  lit "            3. Understanding: Does it demonstrate comprehension of key concepts?" ++ nl ++
  lit "            4. Evidence: Is the answer supported by document content?" ++ nl ++
  lit "            " ++ nl ++ lit "            Please respond in JSON format:" ++ nl ++
  lit "            {" ++ nl ++ lit "                " ++ dq ++ lit "score" ++ dq ++ lit ": 85," ++
  nl ++ lit "                " ++ dq ++ lit "feedback" ++ dq ++ lit ": " ++ dq ++
  lit "Detailed feedback explaining the evaluation" ++ dq ++ lit "," ++ nl ++
  lit "                " ++ dq ++ lit "strengths" ++ dq ++ lit ": " ++ dq ++
  lit "What the user did well" ++ dq ++ lit "," ++ nl ++ lit "                " ++ dq ++
  lit "areas_for_improvement" ++ dq ++ lit ": " ++ dq ++ lit "What could be better" ++ dq ++
  lit "," ++ nl ++ lit "                " ++ dq ++ lit "citation" ++ dq ++ lit ": " ++ dq ++
  lit "Document reference that supports the correct answer" ++ dq ++ nl ++ lit "            }" ++
  nl ++ lit "            " ++ nl ++ lit "            Score should be 0-100, where:" ++ nl ++
  lit "            - 90-100: Excellent, comprehensive understanding" ++ nl ++
  lit "            - 80-89: Good understanding with minor gaps" ++ nl ++
  lit "            - 70-79: Adequate understanding but missing key points" ++ nl ++
  lit "            - 60-69: Basic understanding but significant gaps" ++ nl ++
  lit "            - Below 60: Poor understanding or major inaccuracies" ++ nl ++
  lit "            ".

Definition evaluation_request (question : pyval) (user_answer : str)
    (expected_answer : pyval) (document_text : str) : request :=
  {| model := gpt_4o;
     system_content := lit "You are an expert evaluator who provides fair, constructive feedback on comprehension answers based on document evidence.";
     user_content := evaluation_prompt question user_answer expected_answer document_text;
     max_tokens := None;
     temperature_tenths := 3;
     json_object := true |}.

Definition evaluate_answer (question : pyval) (user_answer : str)
    (expected_answer : pyval) (document_text : str) : M (list request) pyval :=
  try_except
    (content <-
       chat_completions_create
         (evaluation_request question user_answer expected_answer document_text) ;;
     result <- lift_outcome (loads_content content) ;;
     ret result)
    (fun e => raise (Exception (lit "Failed to evaluate answer: " ++ str_of_exn e))).

End WithRemote.
End AIAssistant.

(* ===================================================================== *)
(** ** Streamlit: the session state and the messages shown                *)
(* ===================================================================== *)

Module St.
Import Py.

(** A stored answer to a challenge question: the user's text and the
    evaluation the model returned. *)
Record challenge_answer := {
  user_answer : str;
  evaluation : pyval;
}.

(** [st.session_state], restricted to the keys the application owns. A key
    that is not in the session state is [None] here. *)
Record session_state := {
  document_content : option str;
  document_summary : option str;
  document_name : option str;
  (** the stored value is Python's [None] or a mode name *)
  interaction_mode : option (option str);
  challenge_questions : option pyval;
  challenge_answers : option (gmap nat challenge_answer);
  qa_history : option (list AIAssistant.qa_entry);
}.

Inductive key :=
| k_document_content | k_document_summary | k_document_name
| k_interaction_mode | k_challenge_questions | k_challenge_answers
| k_qa_history.

(** [key in st.session_state] *)
Definition contains (k : key) (ss : session_state) : bool :=
  match k with
  | k_document_content => bool_decide (is_Some (document_content ss))
  | k_document_summary => bool_decide (is_Some (document_summary ss))
  | k_document_name => bool_decide (is_Some (document_name ss))
  | k_interaction_mode => bool_decide (is_Some (interaction_mode ss))
  | k_challenge_questions => bool_decide (is_Some (challenge_questions ss))
  | k_challenge_answers => bool_decide (is_Some (challenge_answers ss))
  | k_qa_history => bool_decide (is_Some (qa_history ss))
  end.

Definition set_document_content (v : option str) (ss : session_state) :=
  {| document_content := v; document_summary := document_summary ss;
     document_name := document_name ss; interaction_mode := interaction_mode ss;
     challenge_questions := challenge_questions ss;
     challenge_answers := challenge_answers ss; qa_history := qa_history ss |}.

Definition set_document_summary (v : option str) (ss : session_state) :=
  {| document_content := document_content ss; document_summary := v;
     document_name := document_name ss; interaction_mode := interaction_mode ss;
     challenge_questions := challenge_questions ss;
     challenge_answers := challenge_answers ss; qa_history := qa_history ss |}.

Definition set_document_name (v : option str) (ss : session_state) :=
  {| document_content := document_content ss; document_summary := document_summary ss;
     document_name := v; interaction_mode := interaction_mode ss;
     challenge_questions := challenge_questions ss;
     challenge_answers := challenge_answers ss; qa_history := qa_history ss |}.

Definition set_interaction_mode (v : option (option str)) (ss : session_state) :=
  {| document_content := document_content ss; document_summary := document_summary ss;
     document_name := document_name ss; interaction_mode := v;
     challenge_questions := challenge_questions ss;
     challenge_answers := challenge_answers ss; qa_history := qa_history ss |}.

Definition set_challenge_questions (v : option pyval) (ss : session_state) :=
  {| document_content := document_content ss; document_summary := document_summary ss;
     document_name := document_name ss; interaction_mode := interaction_mode ss;
     challenge_questions := v;
     challenge_answers := challenge_answers ss; qa_history := qa_history ss |}.

Definition set_challenge_answers (v : option (gmap nat challenge_answer))
    (ss : session_state) :=
  {| document_content := document_content ss; document_summary := document_summary ss;
     document_name := document_name ss; interaction_mode := interaction_mode ss;
     challenge_questions := challenge_questions ss;
     challenge_answers := v; qa_history := qa_history ss |}.

Definition set_qa_history (v : option (list AIAssistant.qa_entry)) (ss : session_state) :=
  {| document_content := document_content ss; document_summary := document_summary ss;
     document_name := document_name ss; interaction_mode := interaction_mode ss;
     challenge_questions := challenge_questions ss;
     challenge_answers := challenge_answers ss; qa_history := v |}.

(** The session state without any of these keys. *)
Definition no_keys : session_state :=
  {| document_content := None; document_summary := None; document_name := None;
     interaction_mode := None; challenge_questions := None;
     challenge_answers := None; qa_history := None |}.

(** [del st.session_state[key]] *)
Definition del (k : key) (ss : session_state) : session_state :=
  match k with
  | k_document_content => set_document_content None ss
  | k_document_summary => set_document_summary None ss
  | k_document_name => set_document_name None ss
  | k_interaction_mode => set_interaction_mode None ss
  | k_challenge_questions => set_challenge_questions None ss
  | k_challenge_answers => set_challenge_answers None ss
  | k_qa_history => set_qa_history None ss
  end.

(** A message put on the page. *)
Inductive message :=
| error (text : str)
| success (text : str).

(** What a run of the script acts on: the session state, the requests sent
    to the remote model, and the messages shown, oldest first. *)
Record world := {
  session : session_state;
  sent : list AIAssistant.request;
  shown : list message;
}.

Definition with_session (ss : session_state) (w : world) : world :=
  {| session := ss; sent := sent w; shown := shown w |}.

Definition with_sent (l : list AIAssistant.request) (w : world) : world :=
  {| session := session w; sent := l; shown := shown w |}.

Definition session_modify (f : session_state -> session_state) : M world unit :=
  modify (fun w => with_session (f (session w)) w).

(** [st.session_state.<key>], which raises [AttributeError] for a key that
    is not in the session state (the library's message is abbreviated). *)
Definition session_attr {A} (field : session_state -> option A) (key_name : string)
    : M world A :=
  fun w =>
    match field (session w) with
    | Some v => (Ok v, w)
    | None =>
        (Raise (Builtin AttributeError
                  (lit "st.session_state has no attribute " ++ lit key_name)), w)
    end.

Definition st_show (m : message) : M world unit :=
  modify (fun w => {| session := session w; sent := sent w; shown := shown w ++ [m] |}).

(** [st.error(text)] *)
Definition st_error (text : str) : M world unit := st_show (error text).

(** [st.success(text)] *)
Definition st_success (text : str) : M world unit := st_show (success text).

(** [st.rerun()] *)
Definition st_rerun {A} : M world A := fun w => (Rerun, w).

(** A call into [AIAssistant], which acts on the requests sent. *)
Definition assistant {A} (m : M (list AIAssistant.request) A) : M world A :=
  zoom sent with_sent m.

End St.

(* ===================================================================== *)
(** ** utils.py                                                           *)
(* ===================================================================== *)

Module Utils.
Import Py St.

Definition keys_to_clear : list key :=
  [k_document_content; k_document_summary; k_document_name; k_interaction_mode;
   k_challenge_questions; k_challenge_answers; k_qa_history].

(** The loop of [clear_session_state], on the session state. *)
Definition clear_keys (keys : list key) (ss : session_state) : session_state :=
  fold_left (fun ss key => if contains key ss then del key ss else ss) keys ss.

(** [clear_session_state()] *)
Definition clear_session_state : M world unit :=
  session_modify (clear_keys keys_to_clear).

(** [format_citation] *)
Definition format_citation (citation : str) : str :=
  if negb (truthy_str citation) then lit "No specific citation available"
  else
    let citation := strip citation in
    if negb (startswith (lit "Source:") citation)
       && negb (startswith (lit "Reference:") citation)
    then lit "Source: " ++ citation
    else citation.

(** [truncate_text] *)
Definition truncate_text (text : str) (max_length : Z) : str :=
  if (Z.of_nat (length text) <=? max_length)%Z then text
  else strip (slice_to text max_length) ++ lit "...".

(** [get_reading_time_estimate]; the division by a [wpm] of zero raises
    [ZeroDivisionError], which is kept under [OtherError]. *)
Definition get_reading_time_estimate (text : str) (wpm : Z) : outcome str :=
  let word_count := Z.of_nat (length (split_ws text)) in
  if (wpm =? 0)%Z
  then Raise (Builtin OtherError (lit "integer division or modulo by zero"))
  else
    let minutes := Z.max 1 (word_count / wpm) in
    if (minutes =? 1)%Z then Ok (lit "1 minute")
    else if (minutes <? 60)%Z then Ok (str_of_Z minutes ++ lit " minutes")
    else
      let hours := (minutes / 60)%Z in
      let remaining_minutes := (minutes mod 60)%Z in
      let plural := if (1 <? hours)%Z then lit "s" else [] in
      if (remaining_minutes =? 0)%Z
      then Ok (str_of_Z hours ++ lit " hour" ++ plural)
      else Ok (str_of_Z hours ++ lit " hour" ++ plural ++ lit " "
                 ++ str_of_Z remaining_minutes ++ lit " minutes").

(** [format_score_color] *)
Definition format_score_color (score : Z) : str :=
  if (80 <=? score)%Z then lit "green"
  else if (60 <=? score)%Z then lit "orange"
  else lit "red".

(** [s.rsplit('.', 1)] for a text with a dot: the text before the last dot
    and the text after it; [None] when there is no dot. *)
Fixpoint until_dot (s : str) : str * option str :=
  match s with
  | [] => ([], None)
  | c :: s' =>
      if c =? 0x2E then ([], Some s')
      else let (a, r) := until_dot s' in (c :: a, r)
  end.

Definition rsplit_dot (s : str) : option (str * str) :=
  match until_dot (rev s) with
  | (after_rev, Some before_rev) => Some (rev before_rev, rev after_rev)
  | (_, None) => None
  end.

(** [re.split(r'[.!?]+', text)]: the texts between the maximal runs of
    the three marks; [in_run] says that the code point before was a mark. *)
Definition is_mark (c : N) : bool := (c =? 0x2E) || (c =? 0x21) || (c =? 0x3F).

Fixpoint re_split_marks_from (in_run : bool) (cur s : str) : list str :=
  match s with
  | [] => [rev cur]
  | c :: s' =>
      if is_mark c
      then if in_run then re_split_marks_from true cur s'
           else rev cur :: re_split_marks_from true [] s'
      else re_split_marks_from false (c :: cur) s'
  end.

Definition re_split_marks (text : str) : list str := re_split_marks_from false [] text.

Section WithUnicode.

(** [c.isalnum()] for one code point and [s.isupper()], which follow the
    Unicode character database. *)
Variable isalnum : N -> bool.
Variable str_isupper : str -> bool.

(** The class [\w\-_\.] of the pattern of [sanitize_filename]. *)
Definition is_safe (c : N) : bool :=
  (isalnum c || (c =? 0x5F)) || (c =? 0x2D) || (c =? 0x5F) || (c =? 0x2E).

(** [sanitize_filename] *)
Definition sanitize_filename (filename : str) : str :=
  let sanitized := List.map (fun c => if is_safe c then c else 0x5F) filename in
  if (50 <? length sanitized)%nat
  then
    let '(name, ext) :=
      match rsplit_dot sanitized with
      | Some (name, ext) => (name, ext)
      | None => (sanitized, [])
      end in
    take 45 name ++ (if truthy_str ext then lit "." ++ ext else [])
  else sanitized.

Definition stop_words : list str :=
  [lit "The"; lit "This"; lit "That"; lit "These"; lit "Those"].

(** The test on a word in [extract_key_phrases]; [word[0]] is the first
    code point of a word of [sentence.split()], which is not empty. *)
Definition is_key_word (word : str) : bool :=
  str_isupper (take 1 word)
  && (3 <? length word)%nat
  && negb (str_isupper word)
  && negb (bool_decide (word ∈ stop_words)).

(** The loop over the words of one sentence; [i] is the index of the first
    of the [remaining] words in [words]. *)
Fixpoint words_loop (num_phrases : Z) (words : list str) (i : nat)
    (remaining : list str) (key_phrases : list str) : list str :=
  match remaining with
  | [] => key_phrases
  | word :: rest =>
      if is_key_word word
      then
        let phrase_end := Nat.min (i + 3) (length words) in
        let phrase := join (lit " ") (take (phrase_end - i) (drop i words)) in
        let key_phrases' :=
          if (5 <? length phrase)%nat && negb (bool_decide (phrase ∈ key_phrases))
          then key_phrases ++ [phrase]
          else key_phrases in
        if (num_phrases <=? Z.of_nat (length key_phrases'))%Z
        then key_phrases'
        else words_loop num_phrases words (S i) rest key_phrases'
      else words_loop num_phrases words (S i) rest key_phrases
  end.

(** The loop over the sentences. *)
Fixpoint sentences_loop (num_phrases : Z) (sentences : list str)
    (key_phrases : list str) : list str :=
  match sentences with
  | [] => key_phrases
  | sentence :: rest =>
      let words := split_ws sentence in
      let key_phrases' := words_loop num_phrases words 0 words key_phrases in
      if (num_phrases <=? Z.of_nat (length key_phrases'))%Z
      then key_phrases'
      else sentences_loop num_phrases rest key_phrases'
  end.

(** [extract_key_phrases] *)
Definition extract_key_phrases (text : str) (num_phrases : Z) : list str :=
  let sentences := re_split_marks text in
  slice_to (sentences_loop num_phrases (slice_to sentences 20) []) num_phrases.

End WithUnicode.

End Utils.

(* ===================================================================== *)
(** ** app.py                                                             *)
(* ===================================================================== *)

Module App.
Import Py Lib St Utils.
Import DocumentProcessor(UploadedFile, name, data, pos, extract_text).
Import AIAssistant(qa_entry, request, reply, generate_summary, answer_question).
Local Open Scope py_scope.

(** Lines 15-28: a key that is not in the session state gets its initial
    value. *)
Definition init_key (k : key) (ss : session_state) : session_state :=
  if contains k ss then ss
  else
    match k with
    | k_document_content => set_document_content (Some []) ss
    | k_document_summary => set_document_summary (Some []) ss
    | k_document_name => set_document_name (Some []) ss
    | k_interaction_mode => set_interaction_mode (Some None) ss
    | k_challenge_questions => set_challenge_questions (Some (PList [])) ss
    | k_challenge_answers => set_challenge_answers (Some ∅) ss
    | k_qa_history => set_qa_history (Some []) ss
    end.

Definition initialize_session_state : M world unit :=
  session_modify
    (fun ss =>
       fold_left (fun ss k => init_key k ss)
         [k_document_content; k_document_summary; k_document_name; k_interaction_mode;
          k_challenge_questions; k_challenge_answers; k_qa_history]
         ss).

Section WithRemote.
Context `{Externals}.
Variable remote : list request -> request -> reply.

(** A call of [doc_processor.extract_text(uploaded_file)]; it acts on the
    read position of the file object only. *)
Definition doc_processor_extract_text (uploaded_file : UploadedFile) : M world str :=
  fun w => (fst (extract_text uploaded_file), w).

(** Lines 54-68: the [try] statement that processes a new document. *)
Definition process_document (uploaded_file : UploadedFile) : M world unit :=
  try_except
    (document_text <- doc_processor_extract_text uploaded_file ;;
     session_modify (set_document_content (Some document_text)) ;;;
     summary <- assistant (generate_summary remote document_text) ;;
     session_modify (set_document_summary (Some summary)) ;;;
     st_success (lit "Document processed successfully!") ;;;
     st_rerun)
    (fun e => st_error (lit "Error processing document: " ++ str_of_exn e)).

(** Lines 48-68: the upload handling block; [uploaded_file] is what
    [st.file_uploader] returned. *)
Definition upload_block (uploaded_file : option UploadedFile) : M world unit :=
  match uploaded_file with
  | None => ret tt
  | Some f =>
      current <- session_attr document_name "document_name" ;;
      if bool_decide (name f ≠ current)
      then
        clear_session_state ;;;
        session_modify (set_document_name (Some (name f))) ;;;
        process_document f
      else ret tt
  end.

(** Lines 132-150: the question handling block; [get_answer] is what
    [st.button] returned and [user_question] the content of the text
    input. *)
Definition submit_question_block (get_answer : bool) (user_question : str)
    : M world unit :=
  if get_answer && truthy_str user_question
  then
    try_except
      (content <- session_attr document_content "document_content" ;;
       history <- session_attr qa_history "qa_history" ;;
       answer_data <- assistant (answer_question remote user_question content history) ;;
       target <- session_attr qa_history "qa_history" ;;
       a <- lift_outcome (getitem_str answer_data (lit "answer")) ;;
       c <- lift_outcome (getitem_str answer_data (lit "citation")) ;;
       session_modify
         (set_qa_history
            (Some (target ++ [ {| AIAssistant.question := user_question;
                                  AIAssistant.answer := a;
                                  AIAssistant.citation := c |} ]))) ;;;
       st_rerun)
      (fun e => st_error (lit "Error generating answer: " ++ str_of_exn e))
  else ret tt.

(** Lines 70-78: the document information and the button that clears
    the document; [clear_document] is what [st.button] returned. The texts
    written with [st.write] are not recorded, the reads they make are. *)
Definition document_info_block (clear_document : bool) : M world unit :=
  content <- session_attr document_content "document_content" ;;
  if truthy_str content
  then
    (session_attr document_name "document_name" ;;;
     session_attr document_content "document_content" ;;;
     if clear_document then (clear_session_state ;;; st_rerun) else ret tt)
  else ret tt.

(** Lines 39-78: the sidebar. *)
Definition sidebar (uploaded_file : option UploadedFile) (clear_document : bool)
    : M world unit :=
  upload_block uploaded_file ;;; document_info_block clear_document.

(** Lines 101-103: the button of the question mode. *)
Definition ask_anything_block (clicked : bool) : M world unit :=
  if clicked
  then
    session_modify (set_interaction_mode (Some (Some (lit "ask_anything")))) ;;;
    st_rerun
  else ret tt.

(** Lines 106-117: the button of the challenge mode. *)
Definition challenge_me_block (clicked : bool) : M world unit :=
  if clicked
  then
    session_modify (set_interaction_mode (Some (Some (lit "challenge_me")))) ;;;
    stored <- session_attr challenge_questions "challenge_questions" ;;
    (if negb (truthy stored)
     then
       try_except
         (content <- session_attr document_content "document_content" ;;
          questions <-
            assistant (AIAssistant.generate_challenge_questions remote content) ;;
          session_modify (set_challenge_questions (Some questions)))
         (fun e => st_error (lit "Error generating questions: " ++ str_of_exn e))
     else ret tt) ;;;
    st_rerun
  else ret tt.

(** Lines 183-199: the button that submits the answer to the challenge
    question of index [i]; [question_data] is that question as stored,
    [submit] what [st.button] returned and [answer_text] the content of the
    text area. *)
Definition submit_answer_block (i : nat) (question_data : pyval) (submit : bool)
    (answer_text : str) : M world unit :=
  if submit && truthy_str answer_text
  then
    try_except
      (question <- lift_outcome (getitem_str question_data (lit "question")) ;;
       expected <- lift_outcome (getitem_str question_data (lit "expected_answer")) ;;
       content <- session_attr document_content "document_content" ;;
       evaluation <-
         assistant (AIAssistant.evaluate_answer remote question answer_text expected content) ;;
       answers <- session_attr challenge_answers "challenge_answers" ;;
       session_modify
         (set_challenge_answers
            (Some (<[i := {| user_answer := answer_text; evaluation := evaluation |}]>
                     answers))) ;;;
       st_rerun)
      (fun e => st_error (lit "Error evaluating answer: " ++ str_of_exn e))
  else ret tt.

(** Lines 227-238: the button that asks for new challenge questions. *)
Definition regenerate_block (clicked : bool) : M world unit :=
  if clicked
  then
    session_modify (set_challenge_questions (Some (PList []))) ;;;
    session_modify (set_challenge_answers (Some ∅)) ;;;
    try_except
      (content <- session_attr document_content "document_content" ;;
       questions <-
         assistant (AIAssistant.generate_challenge_questions remote content) ;;
       session_modify (set_challenge_questions (Some questions)) ;;;
       st_rerun)
      (fun e => st_error (lit "Error generating questions: " ++ str_of_exn e))
  else ret tt.

(** Vocabulary for a failed upload: which of the two steps of
    [process_document] raised, and with what. *)
Inductive upload_failure :=
| extraction_failed (e : exn)
| summary_failed (document_text : str) (e : exn).

Definition cause (k : upload_failure) : exn :=
  match k with
  | extraction_failed e => e
  | summary_failed _ e => e
  end.

Definition upload_fails (uploaded_file : UploadedFile) (w : world) (k : upload_failure)
    : Prop :=
  match k with
  | extraction_failed e => fst (extract_text uploaded_file) = Raise e
  | summary_failed document_text e =>
      fst (extract_text uploaded_file) = Ok document_text
      /\ fst (generate_summary remote document_text (sent w)) = Raise e
  end.

End WithRemote.

(** The session state of the first run, once initialised. *)
Definition initial_session : session_state :=
  {| document_content := Some []; document_summary := Some [];
     document_name := Some []; interaction_mode := Some None;
     challenge_questions := Some (PList []); challenge_answers := Some ∅;
     qa_history := Some [] |}.

(** The session state that holds a document name and nothing else. *)
Definition named_only (file_name : str) : session_state :=
  {| document_content := None; document_summary := None;
     document_name := Some file_name; interaction_mode := None;
     challenge_questions := None; challenge_answers := None;
     qa_history := None |}.

End App.

(* ===================================================================== *)
(** ** Test doubles and sample data                                       *)
(* ===================================================================== *)

(** Stand-ins for the libraries and sample documents, for the examples
    below. Each stand-in agrees with the library on the inputs the examples
    give it; what it does elsewhere is said at its definition. *)
Module Doubles.
Import Py Lib.

(** A quoted ASCII literal, as it occurs in JSON text. *)
Definition quoted (s : string) : str := dq ++ lit s ++ dq.

(** Decoding of ASCII-only bytes, which utf-8 and cp1252 decode alike;
    other byte strings are refused. *)
Definition decode_ascii (b : list byte) : option str :=
  if forallb (fun x => Byte.to_N x <? 0x80) b then Some (List.map Byte.to_N b) else None.

(** [s.lower()] on ASCII letters; other code points are kept. *)
Definition lower_ascii (s : str) : str :=
  List.map (fun c => if (0x41 <=? c) && (c <=? 0x5A) then c + 0x20 else c) s.

(** [json.dumps(l, indent=2)] for strings that need no escaping. *)
Definition dumps_plain (l : list str) : str :=
  match l with
  | [] => lit "[]"
  | x :: rest =>
      lit "[" ++ nl ++ lit "  " ++ dq ++ x ++ dq
        ++ concat (List.map (fun y => lit "," ++ nl ++ lit "  " ++ dq ++ y ++ dq) rest)
        ++ nl ++ lit "]"
  end.

(** [str(v)] for [None], booleans and integers; other values are not
    formatted in the examples. *)
Definition format_scalar (v : pyval) : str :=
  match v with
  | PNone => lit "None"
  | PBool true => lit "True"
  | PBool false => lit "False"
  | PInt z => str_of_Z z
  | _ => lit "?"
  end.

(** Replies of the remote model used in the examples. *)
Definition reply_full : str :=
  lit "{" ++ quoted "answer" ++ lit ":" ++ quoted "X is Y" ++ lit ","
    ++ quoted "citation" ++ lit ":" ++ quoted "para 2" ++ lit ","
    ++ quoted "confidence" ++ lit ":" ++ quoted "high" ++ lit "}".

Definition reply_without_answer : str :=
  lit "{" ++ quoted "citation" ++ lit ":" ++ quoted "para 2" ++ lit "}".

Definition reply_one_index : str :=
  lit "{" ++ quoted "relevant_chunk_indices" ++ lit ": [0]}".

Definition reply_low_index : str :=
  lit "{" ++ quoted "relevant_chunk_indices" ++ lit ": [0, -5, 1]}".

Definition reply_mixed_indices : str :=
  lit "{" ++ quoted "relevant_chunk_indices" ++ lit ": [2, 7, 0]}".

Definition reply_not_json : str := lit "Sorry, I cannot help with that.".

(** [json.loads] on the replies above; every other text is treated as the
    last one, which is not JSON. *)
Definition loads_table (s : str) : fallible pyval :=
  if bool_decide (s = reply_full) then
    inr (PDict [(PStr (lit "answer"), PStr (lit "X is Y"));
                (PStr (lit "citation"), PStr (lit "para 2"));
                (PStr (lit "confidence"), PStr (lit "high"))])
  else if bool_decide (s = reply_without_answer) then
    inr (PDict [(PStr (lit "citation"), PStr (lit "para 2"))])
  else if bool_decide (s = reply_one_index) then
    inr (PDict [(PStr (lit "relevant_chunk_indices"), PList [PInt 0])])
  else if bool_decide (s = reply_low_index) then
    inr (PDict [(PStr (lit "relevant_chunk_indices"), PList [PInt 0; PInt (-5); PInt 1])])
  else if bool_decide (s = reply_mixed_indices) then
    inr (PDict [(PStr (lit "relevant_chunk_indices"), PList [PInt 2; PInt 7; PInt 0])])
  else inl (Builtin OtherError (lit "Expecting value: line 1 column 1 (char 0)")).

Definition externals : Externals :=
  {| json_loads := loads_table;
     json_dumps_indent2 := dumps_plain;
     format_other := format_scalar;
     str_lower := lower_ascii;
     decode_utf8 := decode_ascii;
     decode_utf16 := fun _ => None;
     decode_cp1252 := decode_ascii;
     pdf_page_texts := fun _ =>
       inl (Builtin OtherError (lit "No /Root object! - Is this really a PDF?")) |}.

(** [c.isalnum()] and [s.isupper()] on ASCII text; other code points
    count as neither letters nor digits. *)
Definition isalnum_ascii (c : N) : bool :=
  ((0x30 <=? c) && (c <=? 0x39)) || ((0x41 <=? c) && (c <=? 0x5A))
  || ((0x61 <=? c) && (c <=? 0x7A)).

Definition isupper_ascii (s : str) : bool :=
  existsb (fun c => (0x41 <=? c) && (c <=? 0x5A)) s
  && negb (existsb (fun c => (0x61 <=? c) && (c <=? 0x7A)) s).

(** Further replies: one challenge question where three were asked for,
    and an evaluation with a score outside 0-100. *)
Definition reply_one_question : str :=
  lit "{" ++ quoted "questions" ++ lit ": [{" ++ quoted "question" ++ lit ": "
    ++ quoted "Why X?" ++ lit ", " ++ quoted "expected_answer" ++ lit ": "
    ++ quoted "Because Y." ++ lit "}]}".

Definition one_question : pyval :=
  PDict [(PStr (lit "question"), PStr (lit "Why X?"));
         (PStr (lit "expected_answer"), PStr (lit "Because Y."))].

Definition reply_evaluation : str :=
  lit "{" ++ quoted "score" ++ lit ": 250, " ++ quoted "feedback" ++ lit ": "
    ++ quoted "Fine." ++ lit "}".

Definition evaluation_250 : pyval :=
  PDict [(PStr (lit "score"), PInt 250); (PStr (lit "feedback"), PStr (lit "Fine."))].

(** [json.loads] on these replies and on those of [loads_table]. *)
Definition loads_more (s : str) : fallible pyval :=
  if bool_decide (s = reply_one_question) then
    inr (PDict [(PStr (lit "questions"), PList [one_question])])
  else if bool_decide (s = reply_evaluation) then inr evaluation_250
  else loads_table s.

Definition externals_more : Externals :=
  {| json_loads := loads_more;
     json_dumps_indent2 := dumps_plain;
     format_other := format_scalar;
     str_lower := lower_ascii;
     decode_utf8 := decode_ascii;
     decode_utf16 := fun _ => None;
     decode_cp1252 := decode_ascii;
     pdf_page_texts := fun _ =>
       inl (Builtin OtherError (lit "No /Root object! - Is this really a PDF?")) |}.

(** The same stand-ins with a PDF reader that finds the given page texts
    in every file. *)
Definition externals_with_pages (pages : list (option str)) : Externals :=
  {| json_loads := loads_table;
     json_dumps_indent2 := dumps_plain;
     format_other := format_scalar;
     str_lower := lower_ascii;
     decode_utf8 := decode_ascii;
     decode_utf16 := fun _ => None;
     decode_cp1252 := decode_ascii;
     pdf_page_texts := fun _ => inr pages |}.

(** Remote models: one that always answers with the same content, one
    whose calls always fail. *)
Definition always (content : option str) : list AIAssistant.request -> AIAssistant.request -> AIAssistant.reply :=
  fun _ _ => AIAssistant.Content content.

Definition unreachable_api : list AIAssistant.request -> AIAssistant.request -> AIAssistant.reply :=
  fun _ _ => AIAssistant.ApiError (Builtin OtherError (lit "Connection error.")).

(** The bytes of an ASCII literal. *)
Definition bytes_of (s : string) : list byte := list_byte_of_string s.

(** A paragraph of sixty times the same letter. *)
Definition paragraph (letter : string) : str := concat (repeat (lit letter) 60).

(** Documents of four and of two paragraphs that are long enough to be
    chunks, and a short note between them in the second. *)
Definition four_paragraphs : str :=
  paragraph "a" ++ nl ++ nl ++ paragraph "b" ++ nl ++ nl
    ++ lit "  " ++ paragraph "c" ++ nl ++ nl ++ nl ++ paragraph "d" ++ nl.

Definition two_paragraphs : str :=
  paragraph "a" ++ nl ++ nl ++ lit "a short note" ++ nl ++ nl ++ paragraph "b".

(** A conversation of five questions and answers. *)
Definition entry (q a c : string) : AIAssistant.qa_entry :=
  {| AIAssistant.question := lit q;
     AIAssistant.answer := PStr (lit a);
     AIAssistant.citation := PStr (lit c) |}.

Definition five_entries : list AIAssistant.qa_entry :=
  [entry "What is A?" "A is one." "para 1";
   entry "What is B?" "B is two." "para 2";
   entry "What is C?" "C is three." "para 3";
   entry "What is D?" "D is four." "para 4";
   entry "What is E?" "E is five." "para 5"].

(** An uploaded text file, not yet read. *)
Definition text_file (file_name contents : string) : DocumentProcessor.UploadedFile :=
  {| DocumentProcessor.name := lit file_name;
     DocumentProcessor.data := bytes_of contents;
     DocumentProcessor.pos := 0 |}.

(** The world at the start of the first run of the script, after the
    initialisation of the session state. *)
(** A session in which a document has been processed and one question
    answered. *)
Definition one_answer_world : St.world :=
  {| St.session :=
       {| St.document_content := Some (lit "X is Y. The rest is about Z.");
          St.document_summary := Some (lit "About X and Z.");
          St.document_name := Some (lit "paper.txt");
          St.interaction_mode := Some (Some (lit "ask_anything"));
          St.challenge_questions := Some (PList []);
          St.challenge_answers := Some ∅;
          St.qa_history := Some [entry "What is X?" "X is Y" "para 2"] |};
     St.sent := [];
     St.shown := [] |}.

(** A session in challenge mode with one stored question and an answer
    to the question of index 1. *)
Definition challenge_world : St.world :=
  {| St.session :=
       {| St.document_content := Some (lit "X is Y. The rest is about Z.");
          St.document_summary := Some (lit "About X and Z.");
          St.document_name := Some (lit "paper.txt");
          St.interaction_mode := Some (Some (lit "challenge_me"));
          St.challenge_questions := Some (PList [one_question]);
          St.challenge_answers :=
            Some {[ 1%nat := {| St.user_answer := lit "An old answer.";
                                St.evaluation := PDict [] |} ]};
          St.qa_history := Some [] |};
     St.sent := [];
     St.shown := [] |}.

Definition fresh_world : St.world :=
  snd (App.initialize_session_state
         {| St.session := St.no_keys; St.sent := []; St.shown := [] |}).

End Doubles.

(* ===================================================================== *)
(** ** Properties of the runtime fragment                                 *)
(* ===================================================================== *)

Module PyFacts.
Import Py.

Lemma startswith_prefix (p s : str) :
  startswith p s = true -> s = p ++ drop (length p) s.
Proof.
  revert s. induction p as [|a p IH]; intros [|b s]; cbn [startswith];
    try discriminate; try reflexivity.
  intros [Hab Hps]%andb_true_iff. apply N.eqb_eq in Hab. subst b.
  cbn [length drop app]. f_equal. apply IH, Hps.
Qed.

Lemma split_from_cons (sep : str) (skip : nat) (cur s : str) :
  exists p rest, split_from sep skip cur s = p :: rest.
Proof.
  revert skip cur. induction s as [|c s IH]; intros skip cur; cbn [split_from].
  - eexists _, _. reflexivity.
  - destruct skip as [|k]; [|apply IH].
    destruct (startswith sep (c :: s)); [eexists _, _; reflexivity | apply IH].
Qed.

Lemma join_cons (sep p : str) (rest : list str) :
  rest <> [] -> join sep (p :: rest) = p ++ sep ++ join sep rest.
Proof. destruct rest; [congruence | reflexivity]. Qed.

Lemma split_from_join (sep : str) (skip : nat) (cur s : str) :
  sep <> [] ->
  (skip <= length s)%nat ->
  join sep (split_from sep skip cur s) = rev cur ++ drop skip s.
Proof.
  intros Hsep. revert skip cur.
  induction s as [|c s IH]; intros skip cur Hskip; cbn [split_from].
  - cbn [length] in Hskip. replace skip with 0%nat by lia.
    cbn [join drop]. rewrite app_nil_r. reflexivity.
  - destruct skip as [|k].
    + destruct (startswith sep (c :: s)) eqn:Hstart.
      * pose proof (startswith_prefix _ _ Hstart) as Hs.
        destruct sep as [|a sep]; [congruence|].
        cbn [length drop app] in Hs. injection Hs as Hc Hs. subst c.
        assert (Hlen : (length sep <= length s)%nat).
        { rewrite Hs, length_app. lia. }
        replace (length (a :: sep) - 1)%nat with (length sep)
          by (cbn [length]; lia).
        destruct (split_from_cons (a :: sep) (length sep) [] s) as (p & rest & Hp).
        rewrite join_cons by (rewrite Hp; discriminate).
        rewrite IH by lia. cbn [rev app drop].
        do 2 f_equal. symmetry. exact Hs.
      * rewrite IH by lia. cbn [rev drop]. rewrite <- app_assoc. reflexivity.
    + rewrite IH by (cbn [length] in Hskip; lia). reflexivity.
Qed.

(** Splitting at a separator and joining with it gives the text back. *)
Lemma split_join (s sep : str) : sep <> [] -> join sep (split s sep) = s.
Proof.
  intros Hsep. unfold split. rewrite split_from_join by (assumption || lia).
  reflexivity.
Qed.

Lemma lstrip_no_space (s : str) (c : N) (rest : str) :
  lstrip s = c :: rest -> isspace c = false.
Proof.
  induction s as [|a s IH]; cbn [lstrip]; [discriminate|].
  destruct (isspace a) eqn:Ha; [exact IH|].
  intros [= <- _]. exact Ha.
Qed.

(** A stripped text does not begin with whitespace. *)
Lemma strip_no_leading_space (s : str) (c : N) (rest : str) :
  strip s = c :: rest -> isspace c = false.
Proof.
  unfold strip, rstrip. intros Hs.
  assert (Hsuffix : forall u : str, exists v, u = v ++ lstrip u).
  { induction u as [|x u [v Hv]]; cbn [lstrip]; [exists []; reflexivity|].
    destruct (isspace x); [exists (x :: v); cbn [app]; f_equal; exact Hv|].
    exists []. reflexivity. }
  destruct (Hsuffix (rev (lstrip s))) as [v Hv].
  apply (f_equal (@rev N)) in Hv.
  rewrite rev_involutive, rev_app_distr, Hs in Hv. cbn [app] in Hv.
  eapply lstrip_no_space, Hv.
Qed.

End PyFacts.

(* ===================================================================== *)
(** ** Properties of document_processor.py                                *)
(* ===================================================================== *)

Module DocumentProcessorFacts.
Import Py Lib DocumentProcessor.

(** C9. For every text, [validate_document_content] returns [True] exactly
    when the stripped text has at least 100 characters and the text has at
    least 50 whitespace-separated words. *)
Theorem validate_document_content_spec (text : str) :
  validate_document_content text = true
  <-> (100 <= length (strip text))%nat /\ (50 <= length (split_ws text))%nat.
Proof.
  unfold validate_document_content.
  destruct text as [|c text].
  - simpl. split; [discriminate | intros [Hlen _]; lia].
  - cbn [truthy_str negb orb].
    destruct (Nat.ltb_spec (length (strip (c :: text))) 100) as [Hs|Hs].
    + split; [discriminate | lia].
    + cbv zeta.
      destruct (Nat.ltb_spec (length (split_ws (c :: text))) 50) as [Hw|Hw].
      * split; [discriminate | lia].
      * split; [intros _; lia | reflexivity].
Qed.

Section Txt.
Context `{Externals}.

Lemma first_decoding_decodes (b : list byte) :
  decode (fst (first_decoding b)) b = Some (snd (first_decoding b)).
Proof.
  unfold first_decoding.
  destruct (decode Utf8 b) eqn:E8; [exact E8|].
  destruct (decode Utf16 b) eqn:E16; [exact E16|].
  reflexivity.
Qed.

Lemma txt_encodings_loop_cons (enc : encoding) (rest : list encoding) (f : UploadedFile) :
  fst (txt_encodings_loop (enc :: rest) f)
  = match decode enc (data f) with
    | Some text_content =>
        if truthy_str (strip text_content) then Ok (strip text_content)
        else Raise (Exception empty_file_message)
    | None =>
        fst (txt_encodings_loop rest
               {| name := name f; data := data f;
                  pos := Nat.max 0 (length (data f)) |})
    end.
Proof.
  cbn [txt_encodings_loop]. unfold bind, seek, read. cbn [pos data name].
  rewrite drop_0.
  destruct (decode enc (data f)) as [t|]; [|reflexivity].
  destruct (truthy_str (strip t)); reflexivity.
Qed.

Lemma extract_txt_text_result (f : UploadedFile) :
  fst (_extract_txt_text f) = txt_result (snd (first_decoding (data f))).
Proof.
  assert (Hwrap : forall o : outcome str * UploadedFile,
             fst (try_except (fun _ => o)
                    (fun e => raise (Exception (lit "TXT extraction failed: " ++ str_of_exn e))) f)
             = match fst o with
               | Raise e => Raise (txt_failed (str_of_exn e))
               | r => r
               end).
  { intros [[a|e|] f']; reflexivity. }
  change (_extract_txt_text f)
    with (try_except (fun _ => txt_encodings_loop encodings f)
            (fun e => raise (Exception (lit "TXT extraction failed: " ++ str_of_exn e))) f).
  rewrite Hwrap. unfold encodings, first_decoding, txt_result.
  rewrite txt_encodings_loop_cons.
  destruct (decode Utf8 (data f)) as [t|] eqn:E8.
  { cbn [snd]. destruct (truthy_str (strip t)); reflexivity. }
  rewrite txt_encodings_loop_cons. cbn [data].
  destruct (decode Utf16 (data f)) as [t|] eqn:E16.
  { cbn [snd]. destruct (truthy_str (strip t)); reflexivity. }
  rewrite txt_encodings_loop_cons. cbn [data decode snd].
  destruct (truthy_str (strip (List.map to_N (data f)))); reflexivity.
Qed.

(** C10. For every byte sequence, [_extract_txt_text] ends with the text
    of the first encoding among utf-8, utf-16 and latin-1 that decodes the
    bytes (latin-1 decodes every byte sequence): it returns the stripped
    text, or fails with the empty-file message when that text is blank.
    It never fails with the decode-failure message. *)
Theorem txt_decode_failure_unreachable (f : UploadedFile) :
  let (enc, text_content) := first_decoding (data f) in
  In enc [Utf8; Utf16; Latin1]
  /\ decode enc (data f) = Some text_content
  /\ decode Latin1 (data f) = Some (List.map Byte.to_N (data f))
  /\ fst (_extract_txt_text f)
     = (if truthy_str (strip text_content) then Ok (strip text_content)
        else Raise (txt_failed empty_file_message))
  /\ fst (_extract_txt_text f) <> Raise (txt_failed undecodable_message).
Proof.
  pose proof (first_decoding_decodes (data f)) as Hdec.
  pose proof (extract_txt_text_result f) as Hres.
  destruct (first_decoding (data f)) as [enc text_content] eqn:Efirst.
  cbn [fst snd] in Hdec, Hres.
  assert (Henc : In enc [Utf8; Utf16; Latin1]).
  { revert Efirst. unfold first_decoding.
    destruct (decode Utf8 (data f)); [intros [= <- _]; simpl; tauto|].
    destruct (decode Utf16 (data f)); intros [= <- _]; simpl; tauto. }
  refine (conj Henc (conj Hdec (conj eq_refl (conj Hres _)))).
  rewrite Hres. unfold txt_result.
  destruct (truthy_str (strip text_content)); [discriminate|].
  intros Hmsg. vm_compute in Hmsg. discriminate Hmsg.
Qed.

End Txt.
End DocumentProcessorFacts.

(* ===================================================================== *)
(** ** Properties of ai_assistant.py                                      *)
(* ===================================================================== *)

Module AIAssistantFacts.
Import Py Lib AIAssistant.

Lemma slice_to_nonneg {A} (l : list A) (n : Z) :
  (0 <= n)%Z -> slice_to l n = take (Z.to_nat n) l.
Proof. intros Hn. unfold slice_to. destruct (Z.leb_spec 0 n); [reflexivity | lia]. Qed.

Lemma index_int_elem {A} (l : list A) (z : Z) (x : A) :
  index_int l z = Ok x -> x ∈ l.
Proof.
  unfold index_int.
  destruct ((0 <=? _) && _)%Z; [|discriminate].
  destruct (l !! _) as [y|] eqn:Hy; [|discriminate].
  intros [= <-]. eapply list_elem_of_lookup_2, Hy.
Qed.

Lemma getitem_list_elem {A} (l : list A) (i : pyval) (x : A) :
  getitem_list l i = Ok x -> x ∈ l.
Proof. destruct i; simpl; try discriminate; apply index_int_elem. Qed.

(** The comprehension only ever yields chunks. *)
Lemma select_chunks_elem (chunks : list str) (indices : list pyval) (l : list str) :
  select_chunks chunks indices = Ok l -> Forall (fun p => p ∈ chunks) l.
Proof.
  revert l. induction indices as [|i rest IH]; intros l; cbn [select_chunks].
  - intros [= <-]. constructor.
  - destruct (lt_int i _) as [[|]| |]; try discriminate.
    + destruct (getitem_list chunks i) as [c| |] eqn:Hc; try discriminate.
      destruct (select_chunks chunks rest) as [l'| |]; try discriminate.
      intros [= <-]. constructor; [eapply getitem_list_elem, Hc | apply IH; reflexivity].
    + apply IH.
Qed.

Lemma index_int_not_rerun {A} (l : list A) (z : Z) : index_int l z <> Rerun.
Proof.
  unfold index_int. destruct ((0 <=? _) && _)%Z; [|discriminate].
  destruct (l !! _); discriminate.
Qed.

Lemma getitem_list_not_rerun {A} (l : list A) (i : pyval) : getitem_list l i <> Rerun.
Proof. destruct i; simpl; try discriminate; apply index_int_not_rerun. Qed.

Lemma lt_int_not_rerun (i : pyval) (n : Z) : lt_int i n <> Rerun.
Proof. destruct i; discriminate. Qed.

(** The comprehension raises or returns; it does not re-run the script. *)
Lemma select_chunks_not_rerun (chunks : list str) (indices : list pyval) :
  select_chunks chunks indices <> Rerun.
Proof.
  induction indices as [|i rest IH]; cbn [select_chunks]; [discriminate|].
  pose proof (lt_int_not_rerun i (Z.of_nat (length chunks))) as Hlt.
  pose proof (getitem_list_not_rerun chunks i) as Hget.
  destruct (lt_int i _) as [[|]| |]; try discriminate; try assumption; try congruence.
  destruct (getitem_list chunks i); try discriminate; try congruence.
  destruct (select_chunks chunks rest); try discriminate; congruence.
Qed.

Section WithRemote.
Context `{Externals}.
Variable remote : list request -> request -> reply.

(** *** generate_summary *)

(** What [generate_summary] does, by the reply of the remote model. *)
Lemma generate_summary_run (document_text : str) (sent : list request) :
  generate_summary remote document_text sent
  = (match remote sent (summary_request document_text) with
     | ApiError e => Raise (Exception (lit "Failed to generate summary: " ++ str_of_exn e))
     | Content (Some c) => Ok (strip c)
     | Content None =>
         Raise (Exception (lit "Failed to generate summary: "
                             ++ lit "'NoneType' object has no attribute 'strip'"))
     end,
     sent ++ [summary_request document_text]).
Proof.
  unfold generate_summary, try_except, bind, chat_completions_create, raise, ret.
  destruct (remote sent (summary_request document_text)) as [e|[c|]]; reflexivity.
Qed.

Lemma summary_request_prefix (document_text : str) :
  summary_request document_text = summary_request (take (Z.to_nat 8000) document_text).
Proof.
  unfold summary_request, summary_prompt.
  rewrite !slice_to_nonneg by lia. rewrite take_take, Nat.min_id. reflexivity.
Qed.

Lemma summary_prompt_parts (document_text : str) :
  summary_prompt document_text
  = summary_prompt_before ++ take (Z.to_nat 8000) document_text ++ summary_prompt_after.
Proof.
  unfold summary_prompt, summary_prompt_before, summary_prompt_after.
  rewrite slice_to_nonneg by lia. rewrite <- !app_assoc. reflexivity.
Qed.

(** C8 (as amended). For every document text, [generate_summary] makes one
    call of [create], whose prompt is the fixed text before the document,
    the first 8000 characters of the document, and the fixed text after
    it, so that what follows the first 8000 characters has no part in the
    request. It fails when the call raises or the reply has no content,
    and otherwise returns the reply stripped, whatever is left of it. *)
Theorem summarize_prompt_and_outcome (document_text : str) (sent : list request) :
  snd (generate_summary remote document_text sent)
  = sent ++ [summary_request document_text]
  /\ user_content (summary_request document_text)
     = summary_prompt_before ++ take (Z.to_nat 8000) document_text
         ++ summary_prompt_after
  /\ summary_request document_text
     = summary_request (take (Z.to_nat 8000) document_text)
  /\ fst (generate_summary remote document_text sent)
     = match remote sent (summary_request document_text) with
       | ApiError e =>
           Raise (Exception (lit "Failed to generate summary: " ++ str_of_exn e))
       | Content None =>
           Raise (Exception (lit "Failed to generate summary: "
                               ++ lit "'NoneType' object has no attribute 'strip'"))
       | Content (Some c) => Ok (strip c)
       end.
Proof.
  rewrite generate_summary_run. cbn [fst snd].
  split; [reflexivity|].
  split; [apply summary_prompt_parts|].
  split; [apply summary_request_prefix|].
  destruct (remote sent (summary_request document_text)) as [e|[c|]]; reflexivity.
Qed.

(** *** extract_relevant_passages *)

(** What [extract_relevant_passages] does when there are more chunks than
    passages asked for. *)
Lemma extract_relevant_passages_ranked (q document_text : str) (num_passages : Z)
    (sent : list request) :
  (num_passages < Z.of_nat (length (chunks_of document_text)))%Z ->
  let chunks := chunks_of document_text in
  let req := passages_request q chunks num_passages in
  extract_relevant_passages remote q document_text num_passages sent
  = (Ok match remote sent req with
        | ApiError _ => slice_to chunks num_passages
        | Content c =>
            match rank_reply chunks c with
            | Ok l => l
            | _ => slice_to chunks num_passages
            end
        end,
     sent ++ [req]).
Proof.
  intros Hlt chunks req.
  unfold extract_relevant_passages, try_except, bind, chat_completions_create,
    lift_outcome, ret.
  fold chunks.
  destruct (Z.leb_spec (Z.of_nat (length chunks)) num_passages) as [Hle|_];
    [unfold chunks in Hle; lia|].
  fold req.
  destruct (remote sent req) as [e|c]; [reflexivity|].
  assert (Hnr : rank_reply chunks c <> Rerun).
  { unfold rank_reply, and_then, loads_content, outcome_of.
    destruct c as [c|]; [|discriminate].
    destruct (json_loads c) as [e|v]; [discriminate|].
    destruct v as [| | | | | |d]; cbn [dict_get]; try discriminate.
    destruct (dict_lookup d _) as [indices|]; cbn [iterate];
      [|apply select_chunks_not_rerun].
    destruct indices; cbn [iterate]; try discriminate; apply select_chunks_not_rerun. }
  destruct (rank_reply chunks c); [reflexivity | reflexivity | congruence].
Qed.

Lemma rank_reply_elem (chunks : list str) (c : option str) (l : list str) :
  rank_reply chunks c = Ok l -> Forall (fun p => p ∈ chunks) l.
Proof.
  unfold rank_reply, and_then.
  destruct (loads_content c) as [v| |]; try discriminate.
  destruct (dict_get v _ _) as [indices| |]; try discriminate.
  destruct (iterate indices) as [items| |]; try discriminate.
  apply select_chunks_elem.
Qed.

(** Every chunk is a stripped paragraph of more than 50 characters. *)
Lemma chunks_of_eligible (document_text : str) :
  Forall (fun chunk =>
            (50 < length chunk)%nat
            /\ exists paragraph,
                 paragraph ∈ split document_text (nl ++ nl) /\ chunk = strip paragraph)
    (chunks_of document_text).
Proof.
  unfold chunks_of. apply list.Forall_forall. intros chunk Hin.
  apply list_elem_of_In, in_map_iff in Hin as (paragraph & <- & Hin).
  apply filter_In in Hin as [Hin Hlen].
  split; [apply Nat.ltb_lt, Hlen|].
  exists paragraph. split; [apply list_elem_of_In, Hin | reflexivity].
Qed.

(** C5. When the document has at most [num_passages] chunks, the result is
    the list of its chunks (the stripped paragraphs longer than 50, in the
    order of the document) and no request is sent. *)
Theorem few_chunks_returned_unranked (q document_text : str) (num_passages : Z)
    (sent : list request) :
  (Z.of_nat (length (chunks_of document_text)) <= num_passages)%Z ->
  extract_relevant_passages remote q document_text num_passages sent
  = (Ok (List.map strip
           (List.filter (fun paragraph => (50 <? length (strip paragraph))%nat)
              (split document_text (nl ++ nl)))),
     sent).
Proof.
  intros Hle.
  unfold extract_relevant_passages, try_except, bind, ret.
  destruct (Z.leb_spec (Z.of_nat (length (chunks_of document_text))) num_passages)
    as [_|Hlt]; [reflexivity | lia].
Qed.

(** C3 (as amended). For a document with more than 3 chunks and every
    remote model, [extract_relevant_passages] with 3 passages does not
    raise: it sends one request and returns a list of chunks of the
    document. The list is the first 3 chunks when the call or the handling
    of the reply raises, and otherwise what the ranking of the reply gives,
    of whatever length. *)
Theorem passages_never_raise (q document_text : str) (sent : list request) :
  (3 < length (chunks_of document_text))%nat ->
  let chunks := chunks_of document_text in
  let req := passages_request q chunks 3 in
  exists passages,
    extract_relevant_passages remote q document_text 3 sent
    = (Ok passages, sent ++ [req])
    /\ Forall (fun p => p ∈ chunks) passages
    /\ length (take 3 chunks) = 3%nat
    /\ passages
       = match remote sent req with
         | ApiError _ => take 3 chunks
         | Content c =>
             match rank_reply chunks c with
             | Ok ranked => ranked
             | _ => take 3 chunks
             end
         end.
Proof.
  intros Hlen chunks req.
  assert (Htake : Forall (fun p => p ∈ chunks) (take 3 chunks)).
  { apply list.Forall_forall. intros p Hp.
    apply elem_of_take in Hp as (i & Hi & _). eapply list_elem_of_lookup_2, Hi. }
  eexists. split.
  { rewrite extract_relevant_passages_ranked by (fold chunks in Hlen |- *; lia).
    fold chunks. fold req. reflexivity. }
  rewrite !slice_to_nonneg by lia. change (Z.to_nat 3) with 3%nat.
  split; [|split].
  - destruct (remote sent req) as [e|c]; [exact Htake|].
    destruct (rank_reply chunks c) as [l| |] eqn:Hl;
      [eapply rank_reply_elem, Hl | exact Htake | exact Htake].
  - rewrite length_take. fold chunks in Hlen. lia.
  - reflexivity.
Qed.

Lemma index_int_nat {A} (l : list A) (i : nat) :
  index_int l (Z.of_nat i)
  = match l !! i with
    | Some x => Ok x
    | None => Raise (Builtin IndexError (lit "list index out of range"))
    end.
Proof.
  unfold index_int.
  destruct (Z.ltb_spec (Z.of_nat i) 0); [lia|].
  destruct (Z.leb_spec 0 (Z.of_nat i)); [|lia]. cbn [andb].
  rewrite Nat2Z.id.
  destruct (Z.ltb_spec (Z.of_nat i) (Z.of_nat (length l))) as [Hlt|Hge]; [reflexivity|].
  rewrite (proj2 (lookup_ge_None l i)) by lia. reflexivity.
Qed.

(** What the comprehension gives for indices that are integers from 0 on:
    the chunks at the indices below the number of chunks, in the order of
    the indices. *)
Lemma select_chunks_nonnegative (chunks : list str) (indices : list nat) :
  select_chunks chunks (List.map (fun i => PInt (Z.of_nat i)) indices)
  = Ok (omap (fun i => chunks !! i) indices).
Proof.
  induction indices as [|i rest IH]; [reflexivity|].
  cbn [List.map select_chunks lt_int getitem_list omap list_omap].
  rewrite IH, index_int_nat.
  destruct (Z.ltb_spec (Z.of_nat i) (Z.of_nat (length chunks))) as [Hlt|Hge].
  - destruct (chunks !! i) as [c|] eqn:Hc; [reflexivity|].
    apply lookup_ge_None in Hc. lia.
  - rewrite (proj2 (lookup_ge_None chunks i)) by lia. reflexivity.
Qed.

(** *** answer_question *)

Lemma loads_content_not_rerun (c : option str) : loads_content c <> Rerun.
Proof.
  unfold loads_content, outcome_of.
  destruct c as [c|]; [destruct (json_loads c)|]; discriminate.
Qed.

(** What [answer_question] does, by the reply of the remote model: a reply
    that parses is returned as it is. *)
Lemma answer_question_run (q document_text : str) (history : list qa_entry)
    (sent : list request) :
  answer_question remote q document_text history sent
  = (match remote sent (answer_request q document_text history) with
     | ApiError e => Raise (Exception (lit "Failed to answer question: " ++ str_of_exn e))
     | Content c =>
         match loads_content c with
         | Raise e => Raise (Exception (lit "Failed to answer question: " ++ str_of_exn e))
         | r => r
         end
     end,
     sent ++ [answer_request q document_text history]).
Proof.
  unfold answer_question, try_except, bind, chat_completions_create, lift_outcome,
    raise, ret.
  destruct (remote sent _) as [e|c]; [reflexivity|].
  destruct (loads_content c); reflexivity.
Qed.

Lemma answer_question_sends (q document_text : str) (history : list qa_entry)
    (sent : list request) :
  snd (answer_question remote q document_text history sent)
  = sent ++ [answer_request q document_text history].
Proof.
  unfold answer_question, try_except, bind, chat_completions_create, lift_outcome,
    raise, ret.
  destruct (remote sent _) as [e|c]; [reflexivity|].
  destruct (loads_content c); reflexivity.
Qed.

Lemma build_context_last_three (older : list qa_entry) (e1 e2 e3 : qa_entry) :
  build_context (older ++ [e1; e2; e3])
  = lit "Previous conversation:" ++ nl ++ qa_lines e1 ++ qa_lines e2 ++ qa_lines e3.
Proof.
  unfold build_context.
  assert (Hslice : slice_from (older ++ [e1; e2; e3]) (-3) = [e1; e2; e3]).
  { unfold slice_from. change (0 <=? -3)%Z with false. cbv iota.
    replace (length (older ++ [e1; e2; e3]) - Z.to_nat (- -3))%nat
      with (length older) by (rewrite length_app; cbn [length]; lia).
    apply drop_app_length. }
  rewrite Hslice. cbn [fold_left].
  destruct older; cbn [app]; rewrite <- !app_assoc; reflexivity.
Qed.

Lemma answer_prompt_parts (context document_text q : str) :
  answer_prompt context document_text q
  = answer_prompt_before ++ context ++ answer_prompt_after document_text q.
Proof.
  unfold answer_prompt, answer_prompt_before, answer_prompt_after.
  rewrite <- !app_assoc. reflexivity.
Qed.

(** C7. With a history of at least 3 entries, the prompt sent is the fixed
    text before the context, then the context, then the text with the
    document and the question; the context is the heading followed by the
    Q:/A: pairs of the last 3 entries, in their order. The request is the
    one a history of just these 3 entries gives: the earlier entries have
    no part in it. *)
Theorem answer_context_is_last_three (q document_text : str) (history : list qa_entry)
    (sent : list request) :
  (3 <= length history)%nat ->
  let pair (e : qa_entry) : str :=
    lit "Q: " ++ question e ++ nl ++ lit "A: " ++ format_value (answer e) ++ nl ++ nl in
  exists older e1 e2 e3,
    history = older ++ [e1; e2; e3]
    /\ build_context history
       = lit "Previous conversation:" ++ nl ++ pair e1 ++ pair e2 ++ pair e3
    /\ user_content (answer_request q document_text history)
       = answer_prompt_before
           ++ (lit "Previous conversation:" ++ nl ++ pair e1 ++ pair e2 ++ pair e3)
           ++ answer_prompt_after document_text q
    /\ answer_request q document_text history
       = answer_request q document_text [e1; e2; e3]
    /\ snd (answer_question remote q document_text history sent)
       = sent ++ [answer_request q document_text [e1; e2; e3]].
Proof.
  intros Hlen pair.
  assert (Hsplit : exists older e1 e2 e3, history = older ++ [e1; e2; e3]).
  { exists (take (length history - 3) history).
    pose proof (take_drop (length history - 3) history) as Htd.
    destruct (drop (length history - 3) history) as [|e1 [|e2 [|e3 [|e4 rest]]]] eqn:Hd;
      apply (f_equal length) in Hd; rewrite length_drop in Hd; cbn [length] in Hd;
      try lia.
    exists e1, e2, e3. symmetry. exact Htd. }
  destruct Hsplit as (older & e1 & e2 & e3 & ->).
  exists older, e1, e2, e3.
  assert (Hctx : build_context (older ++ [e1; e2; e3]) = build_context [e1; e2; e3]).
  { rewrite build_context_last_three.
    symmetry. apply (build_context_last_three [] e1 e2 e3). }
  assert (Hreq : answer_request q document_text (older ++ [e1; e2; e3])
                 = answer_request q document_text [e1; e2; e3]).
  { unfold answer_request. rewrite Hctx. reflexivity. }
  split; [reflexivity|].
  split; [apply build_context_last_three|].
  split; [unfold answer_request; cbn [user_content];
          rewrite build_context_last_three; apply answer_prompt_parts|].
  split; [exact Hreq|].
  rewrite answer_question_sends, Hreq. reflexivity.
Qed.

End WithRemote.

(** *** Examples on concrete documents and replies *)

Import Doubles.
#[local] Existing Instance externals.

(** C8, as stated, fails: the model replies with the empty text, and
    [generate_summary] returns the empty summary instead of failing. *)
Lemma summarize_empty_reply_accepted :
  fst (generate_summary (always (Some [])) (lit "A short document.") [])
  = Ok [].
Proof. vm_compute. reflexivity. Qed.

(** Witness of C5: two chunks, three passages asked for. *)
Lemma few_chunks_returned_unranked_witness :
  (Z.of_nat (length (chunks_of two_paragraphs)) <= 3)%Z
  /\ @extract_relevant_passages externals unreachable_api
       (lit "Which letter?") two_paragraphs 3 []
     = (Ok (List.map strip
              (List.filter (fun paragraph => (50 <? length (strip paragraph))%nat)
                 (split two_paragraphs (nl ++ nl)))),
        []).
Proof.
  split.
  - vm_compute. discriminate.
  - apply (@few_chunks_returned_unranked externals unreachable_api).
    vm_compute. discriminate.
Defined.

(** Witness of C3: four chunks and a model that cannot be reached. *)
Lemma passages_never_raise_witness :
  (3 < length (chunks_of four_paragraphs))%nat
  /\ exists passages,
       @extract_relevant_passages externals unreachable_api
         (lit "Which letter?") four_paragraphs 3 []
       = (Ok passages,
          [] ++ [passages_request (lit "Which letter?") (chunks_of four_paragraphs) 3])
       /\ Forall (fun p => p ∈ chunks_of four_paragraphs) passages.
Proof.
  assert (Hlen : (3 < length (chunks_of four_paragraphs))%nat) by (vm_compute; lia).
  split; [exact Hlen|].
  destruct (@passages_never_raise externals unreachable_api
              (lit "Which letter?") four_paragraphs [] Hlen)
    as (passages & Hrun & Hall & _).
  exists passages. split; assumption.
Defined.

(** C3, as stated, fails: the document has four chunks, the model names
    one index, and one passage is returned, not three. *)
Lemma one_index_gives_one_passage :
  (3 < length (chunks_of four_paragraphs))%nat
  /\ fst (@extract_relevant_passages externals (always (Some reply_one_index))
            (lit "Which letter?") four_paragraphs 3 [])
     = Ok [paragraph "a"].
Proof. split; [vm_compute; lia | vm_compute; reflexivity]. Qed.

(** C4 at a failing input. The document has four chunks and the model
    returns the indices 0, -5 and 1. The index -5 passes the test
    [i < len(chunks)], the subscript raises [IndexError], and the result is
    the first three chunks: not the chunks at the indices 0 and 1. *)
Theorem low_index_discards_ranking :
  let chunks := chunks_of four_paragraphs in
  chunks = [paragraph "a"; paragraph "b"; paragraph "c"; paragraph "d"]
  /\ @loads_content externals (Some reply_low_index)
     = Ok (PDict [(PStr (lit "relevant_chunk_indices"),
                   PList [PInt 0; PInt (-5); PInt 1])])
  /\ select_chunks chunks [PInt 0; PInt (-5); PInt 1]
     = Raise (Builtin IndexError (lit "list index out of range"))
  /\ fst (@extract_relevant_passages externals (always (Some reply_low_index))
            (lit "Which letter?") four_paragraphs 3 [])
     = Ok [paragraph "a"; paragraph "b"; paragraph "c"].
Proof. repeat split; vm_compute; reflexivity. Qed.

(** On the same document, indices from 0 on are handled as C4 says: 7 is
    dropped, 2 and 0 are kept in this order. *)
Example high_index_dropped :
  fst (@extract_relevant_passages externals (always (Some reply_mixed_indices))
         (lit "Which letter?") four_paragraphs 3 [])
  = Ok [paragraph "c"; paragraph "a"].
Proof. vm_compute. reflexivity. Qed.

(** Witness of C7: a history of five entries; the prompt of the sixth
    question carries the last three and not the first two. *)
Lemma answer_context_is_last_three_witness :
  (3 <= length five_entries)%nat
  /\ exists older e1 e2 e3,
       five_entries = older ++ [e1; e2; e3]
       /\ user_content (@answer_request externals (lit "What is F?")
                          (lit "A short document.") five_entries)
          = answer_prompt_before
              ++ (lit "Previous conversation:" ++ nl
                    ++ (lit "Q: " ++ question e1 ++ nl ++ lit "A: "
                          ++ format_value (answer e1) ++ nl ++ nl)
                    ++ (lit "Q: " ++ question e2 ++ nl ++ lit "A: "
                          ++ format_value (answer e2) ++ nl ++ nl)
                    ++ (lit "Q: " ++ question e3 ++ nl ++ lit "A: "
                          ++ format_value (answer e3) ++ nl ++ nl))
              ++ answer_prompt_after (lit "A short document.") (lit "What is F?")
       /\ snd (@answer_question externals (always (Some reply_full))
                 (lit "What is F?") (lit "A short document.") five_entries [])
          = [] ++ [@answer_request externals (lit "What is F?") (lit "A short document.")
                     [e1; e2; e3]].
Proof.
  assert (Hlen : (3 <= length five_entries)%nat) by (vm_compute; lia).
  split; [exact Hlen|].
  destruct (@answer_context_is_last_three externals (always (Some reply_full))
              (lit "What is F?") (lit "A short document.") five_entries [] Hlen)
    as (older & e1 & e2 & e3 & Hsplit & _ & Hprompt & _ & Hsent).
  exists older, e1, e2, e3. split; [exact Hsplit|]. split; [exact Hprompt | exact Hsent].
Defined.

(** In that prompt the last three questions occur, with their answers,
    between the guidelines and the document. *)
Example sixth_prompt_context :
  build_context five_entries
  = lit "Previous conversation:" ++ nl
      ++ lit "Q: What is C?" ++ nl ++ lit "A: C is three." ++ nl ++ nl
      ++ lit "Q: What is D?" ++ nl ++ lit "A: D is four." ++ nl ++ nl
      ++ lit "Q: What is E?" ++ nl ++ lit "A: E is five." ++ nl ++ nl.
Proof. vm_compute. reflexivity. Qed.

End AIAssistantFacts.

(* ===================================================================== *)
(** ** Properties of utils.py and app.py                                  *)
(* ===================================================================== *)

Module AppFacts.
Import Py Lib St Utils App.
Import DocumentProcessor(UploadedFile, name, data, pos, extract_text).
Import AIAssistant.

(** [clear_session_state] removes the seven keys, whichever are present. *)
Lemma clear_keys_all (ss : session_state) : clear_keys keys_to_clear ss = no_keys.
Proof.
  destruct ss as [[?|] [?|] [?|] [?|] [?|] [?|] [?|]]; reflexivity.
Qed.

Section WithRemote.
Context `{Externals}.
Variable remote : list request -> request -> reply.

(** What the [try] statement of the upload block does, by the outcome of
    its two calls. *)
Lemma process_document_run (f : UploadedFile) (w : world) :
  process_document remote f w
  = match fst (extract_text f) with
    | Ok document_text =>
        let content_set := set_document_content (Some document_text) (session w) in
        match generate_summary remote document_text (sent w) with
        | (Ok summary, sent') =>
            (Rerun,
             {| session := set_document_summary (Some summary) content_set;
                sent := sent';
                shown := shown w ++ [success (lit "Document processed successfully!")] |})
        | (Raise e, sent') =>
            (Ok tt,
             {| session := content_set;
                sent := sent';
                shown := shown w
                  ++ [error (lit "Error processing document: " ++ str_of_exn e)] |})
        | (Rerun, sent') =>
            (Rerun, {| session := content_set; sent := sent'; shown := shown w |})
        end
    | Raise e =>
        (Ok tt,
         {| session := session w;
            sent := sent w;
            shown := shown w
              ++ [error (lit "Error processing document: " ++ str_of_exn e)] |})
    | Rerun => (Rerun, w)
    end.
Proof.
  unfold process_document, try_except, bind, doc_processor_extract_text.
  destruct (fst (extract_text f)) as [document_text|e|]; [|reflexivity|reflexivity].
  unfold session_modify, modify, assistant, zoom, with_session, with_sent.
  cbn [session sent shown].
  destruct (generate_summary remote document_text (sent w)) as [[summary|e|] sent'];
    reflexivity.
Qed.

(** What the upload block does for a file whose name differs from the one
    stored: everything is cleared, the new name is stored, and the
    document is processed. *)
Lemma upload_block_new_name (f : UploadedFile) (current : str) (w : world) :
  document_name (session w) = Some current ->
  name f <> current ->
  upload_block remote (Some f) w
  = process_document remote f (with_session (named_only (name f)) w).
Proof.
  intros Hcur Hne.
  unfold upload_block, bind, session_attr. rewrite Hcur.
  rewrite bool_decide_true by exact Hne.
  unfold clear_session_state, session_modify, modify, with_session.
  cbn [session sent shown]. rewrite clear_keys_all. reflexivity.
Qed.

Lemma upload_block_same_name (f : UploadedFile) (w : world) :
  document_name (session w) = Some (name f) ->
  upload_block remote (Some f) w = (Ok tt, w).
Proof.
  intros Hcur. unfold upload_block, bind, session_attr. rewrite Hcur.
  rewrite bool_decide_false by (intros Hne; apply Hne; reflexivity).
  reflexivity.
Qed.

(** C6. Uploading a file with the name of the current document changes
    nothing. Uploading a file with another name first clears the session
    state down to the new name, so that the history, the challenge
    questions and answers and the summary are gone before the document is
    processed; afterwards the first three are still gone and the summary
    is the newly generated one, if there is one. *)
Theorem upload_clears_only_for_new_name (f : UploadedFile) (current : str) (w : world) :
  document_name (session w) = Some current ->
  if bool_decide (name f = current)
  then upload_block remote (Some f) w = (Ok tt, w)
  else
    let cleared := with_session (named_only (name f)) w in
    let after := session (snd (upload_block remote (Some f) w)) in
    upload_block remote (Some f) w = process_document remote f cleared
    /\ qa_history (session cleared) = None
    /\ challenge_questions (session cleared) = None
    /\ challenge_answers (session cleared) = None
    /\ document_summary (session cleared) = None
    /\ qa_history after = None
    /\ challenge_questions after = None
    /\ challenge_answers after = None
    /\ document_summary after
       = match fst (extract_text f) with
         | Ok document_text =>
             match fst (generate_summary remote document_text (sent w)) with
             | Ok summary => Some summary
             | _ => None
             end
         | _ => None
         end.
Proof.
  intros Hcur. case_bool_decide as Hname.
  - subst current. apply upload_block_same_name, Hcur.
  - cbv zeta. rewrite (upload_block_new_name f current w Hcur Hname).
    split; [reflexivity|]. do 4 (split; [reflexivity|]).
    rewrite process_document_run. cbn [with_session session sent shown].
    destruct (fst (extract_text f)) as [document_text|e|]; cbn [snd session];
      [|repeat split; reflexivity|repeat split; reflexivity].
    cbv zeta.
    destruct (generate_summary remote document_text (sent w)) as [[summary|e|] sent'];
      cbn [fst snd session]; repeat split; reflexivity.
Qed.

(** C1 (as amended). When a file with a new name is uploaded and the
    extraction of its text fails, the session is left with the name of the
    file and nothing else; when the summary fails, it is left with the name
    and the extracted text, without a summary. In both cases the block
    ends normally and the error is shown. *)
Theorem failed_upload_state (f : UploadedFile) (current : str) (w : world)
    (k : upload_failure) :
  document_name (session w) = Some current ->
  name f <> current ->
  upload_fails remote f w k ->
  let w' := snd (upload_block remote (Some f) w) in
  fst (upload_block remote (Some f) w) = Ok tt
  /\ session w'
     = match k with
       | extraction_failed _ => named_only (name f)
       | summary_failed document_text _ =>
           set_document_content (Some document_text) (named_only (name f))
       end
  /\ document_name (session w') = Some (name f)
  /\ document_content (session w')
     = match k with
       | extraction_failed _ => None
       | summary_failed document_text _ => Some document_text
       end
  /\ document_summary (session w') = None
  /\ shown w'
     = shown w ++ [error (lit "Error processing document: " ++ str_of_exn (cause k))].
Proof.
  intros Hcur Hname Hfails. cbv zeta.
  rewrite (upload_block_new_name f current w Hcur Hname).
  rewrite process_document_run. cbn [with_session session sent shown].
  destruct k as [e|document_text e]; cbn [upload_fails cause] in *.
  - rewrite Hfails. cbn [fst snd session shown]. repeat split; reflexivity.
  - destruct Hfails as [Htext Hsum]. rewrite Htext. cbv zeta.
    destruct (generate_summary remote document_text (sent w)) as [r sent'].
    cbn [fst] in Hsum. subst r. cbn [fst snd session shown].
    repeat split; reflexivity.
Qed.

Lemma getitem_str_has_key (v : pyval) (k : str) :
  has_key v k = false -> exists e, getitem_str v k = Raise e.
Proof.
  unfold has_key.
  destruct v; cbn [getitem_str]; try (intros _; eexists; reflexivity).
  destruct (dict_lookup d k); [discriminate | intros _; eexists; reflexivity].
Qed.

(** C2 (as amended). The reply of the model is not JSON, or it is JSON
    that lacks one of the keys [answer] and [citation]. In the first case
    [answer_question] raises; in the second it returns the parsed reply,
    and it is the question block that fails when it reads the key. In both
    cases the block ends normally with an error shown, and the session
    state, the history included, is as before. *)
Theorem malformed_answer_keeps_history (w : world) (q content : str)
    (history : list qa_entry) (c : option str) :
  document_content (session w) = Some content ->
  qa_history (session w) = Some history ->
  truthy_str q = true ->
  remote (sent w) (answer_request q content history) = Content c ->
  malformed_reply c = true ->
  fst (answer_question remote q content history (sent w))
  = match loads_content c with
    | Raise e => Raise (Exception (lit "Failed to answer question: " ++ str_of_exn e))
    | parsed => parsed
    end
  /\ exists text,
       submit_question_block remote true q w
       = (Ok tt,
          {| session := session w;
             sent := sent w ++ [answer_request q content history];
             shown := shown w ++ [error (lit "Error generating answer: " ++ text)] |})
  /\ qa_history (session (snd (submit_question_block remote true q w))) = Some history.
Proof.
  intros Hcontent Hhistory Hq Hremote Hmal.
  assert (Hrun := AIAssistantFacts.answer_question_run remote q content history (sent w)).
  rewrite Hremote in Hrun.
  split; [rewrite Hrun; reflexivity|].
  assert (Hblock : exists text,
    submit_question_block remote true q w
    = (Ok tt,
       {| session := session w;
          sent := sent w ++ [answer_request q content history];
          shown := shown w ++ [error (lit "Error generating answer: " ++ text)] |})).
  { unfold submit_question_block. rewrite Hq. cbn [andb].
    unfold try_except, bind, session_attr. rewrite Hcontent, Hhistory.
    unfold assistant, zoom. rewrite Hrun.
    unfold with_sent, lift_outcome, st_error, st_show, modify.
    cbn [session sent shown]. rewrite Hhistory.
    unfold malformed_reply in Hmal.
    pose proof (AIAssistantFacts.loads_content_not_rerun c) as Hnr.
    destruct (loads_content c) as [v|e|]; [| |congruence].
    - apply negb_true_iff, andb_false_iff in Hmal.
      destruct (has_key v (lit "answer")) eqn:Ha.
      + destruct Hmal as [Hmal|Hmal]; [discriminate|].
        apply getitem_str_has_key in Hmal as [e He].
        unfold has_key in Ha.
        destruct (getitem_str v (lit "answer")) as [a| |]; try discriminate.
        rewrite He. eexists. reflexivity.
      + apply getitem_str_has_key in Ha as [e He]. rewrite He.
        eexists. reflexivity.
    - eexists. reflexivity. }
  destruct Hblock as [text Hblock].
  exists text. split; [exact Hblock|].
  rewrite Hblock. cbn [snd session]. exact Hhistory.
Qed.

End WithRemote.

(** *** Examples on concrete sessions *)

Import Doubles.
#[local] Existing Instance externals.

(** Witness of C6: the current document is [paper.txt]; the same name is
    uploaded again, and then another name while the model cannot be
    reached. *)
Lemma upload_clears_only_for_new_name_witness :
  document_name (session one_answer_world) = Some (lit "paper.txt")
  /\ upload_block unreachable_api (Some (text_file "paper.txt" "X is Y."))
       one_answer_world
     = (Ok tt, one_answer_world)
  /\ qa_history
       (session (snd (upload_block unreachable_api
                        (Some (text_file "other.txt" "Another text."))
                        one_answer_world)))
     = None.
Proof.
  assert (Hcur : document_name (session one_answer_world) = Some (lit "paper.txt"))
    by reflexivity.
  split; [exact Hcur|]. split.
  - pose proof (upload_clears_only_for_new_name unreachable_api
                  (text_file "paper.txt" "X is Y.") (lit "paper.txt")
                  one_answer_world Hcur) as Hsame.
    rewrite bool_decide_true in Hsame by reflexivity. exact Hsame.
  - pose proof (upload_clears_only_for_new_name unreachable_api
                  (text_file "other.txt" "Another text.") (lit "paper.txt")
                  one_answer_world Hcur) as Hnew.
    rewrite bool_decide_false in Hnew
      by (intros Heq; vm_compute in Heq; discriminate Heq).
    destruct Hnew as (_ & _ & _ & _ & _ & Hhistory & _). exact Hhistory.
Defined.

(** Witness of C1: a new file is uploaded while the model cannot be
    reached, so that the summary fails. *)
Lemma failed_upload_state_witness :
  let f := text_file "other.txt" "Another text." in
  let k := summary_failed (lit "Another text.")
             (Exception (lit "Failed to generate summary: Connection error.")) in
  let w' := snd (upload_block unreachable_api (Some f) one_answer_world) in
  document_name (session one_answer_world) = Some (lit "paper.txt")
  /\ name f <> lit "paper.txt"
  /\ upload_fails unreachable_api f one_answer_world k
  /\ document_name (session w') = Some (lit "other.txt")
  /\ document_content (session w') = Some (lit "Another text.")
  /\ document_summary (session w') = None.
Proof.
  intros f k w'.
  assert (Hcur : document_name (session one_answer_world) = Some (lit "paper.txt"))
    by reflexivity.
  assert (Hname : name f <> lit "paper.txt")
    by (intros Heq; vm_compute in Heq; discriminate Heq).
  assert (Hfails : upload_fails unreachable_api f one_answer_world k)
    by (split; vm_compute; reflexivity).
  destruct (failed_upload_state unreachable_api f (lit "paper.txt") one_answer_world k
              Hcur Hname Hfails)
    as (_ & _ & Hn & Hc & Hs & _).
  repeat split; assumption.
Defined.

(** C1, as stated, fails: the first upload of a session fails at the
    summary, and the session holds the name and the text of the file. *)
Lemma failed_summary_keeps_name_and_text :
  let f := text_file "paper.txt" "X is Y." in
  let w' := snd (upload_block unreachable_api (Some f) fresh_world) in
  fst (extract_text f) = Ok (lit "X is Y.")
  /\ fst (generate_summary unreachable_api (lit "X is Y.") (sent fresh_world))
     = Raise (Exception (lit "Failed to generate summary: Connection error."))
  /\ document_name (session w') = Some (lit "paper.txt")
  /\ document_content (session w') = Some (lit "X is Y.")
  /\ document_summary (session w') = None.
Proof. repeat split; vm_compute; reflexivity. Qed.

(** The same upload with a file that holds only blanks fails at the
    extraction, and the session holds the name of the file. *)
Example failed_extraction_keeps_name :
  let f := text_file "paper.txt" "   " in
  let w' := snd (upload_block unreachable_api (Some f) fresh_world) in
  fst (extract_text f)
  = Raise (Exception (lit "Failed to extract text from document: TXT extraction failed: The text file appears to be empty."))
  /\ document_name (session w') = Some (lit "paper.txt")
  /\ document_content (session w') = None.
Proof. repeat split; vm_compute; reflexivity. Qed.

(** Witness of C2: the reply is JSON without the key [answer]. *)
Lemma malformed_answer_keeps_history_witness :
  let remote := always (Some reply_without_answer) in
  let q := lit "What is Z?" in
  let content := lit "X is Y. The rest is about Z." in
  let history := [entry "What is X?" "X is Y" "para 2"] in
  document_content (session one_answer_world) = Some content
  /\ qa_history (session one_answer_world) = Some history
  /\ truthy_str q = true
  /\ remote (sent one_answer_world) (answer_request q content history)
     = Content (Some reply_without_answer)
  /\ malformed_reply (Some reply_without_answer) = true
  /\ qa_history (session (snd (submit_question_block remote true q one_answer_world)))
     = Some history.
Proof.
  intros remote q content history.
  assert (Hmal : malformed_reply (Some reply_without_answer) = true)
    by (vm_compute; reflexivity).
  destruct (malformed_answer_keeps_history remote one_answer_world q content history
              (Some reply_without_answer) eq_refl eq_refl eq_refl eq_refl Hmal)
    as (_ & text & _ & Hhistory).
  repeat split; try reflexivity; assumption.
Defined.

(** C2, as stated, fails: for a reply without the key [answer],
    [answer_question] does not fail; it returns the parsed reply. *)
Lemma reply_without_key_is_returned :
  malformed_reply (Some reply_without_answer) = true
  /\ fst (answer_question (always (Some reply_without_answer))
            (lit "What is Z?") (lit "X is Y. The rest is about Z.")
            [entry "What is X?" "X is Y" "para 2"] [])
     = Ok (PDict [(PStr (lit "citation"), PStr (lit "para 2"))]).
Proof. split; vm_compute; reflexivity. Qed.

(** A reply with both keys is appended to the history, and the script is
    run again. *)
Example well_formed_answer_appended :
  let r := submit_question_block (always (Some reply_full)) true (lit "What is X?")
             one_answer_world in
  fst r = Rerun
  /\ qa_history (session (snd r))
     = Some [entry "What is X?" "X is Y" "para 2";
             entry "What is X?" "X is Y" "para 2"].
Proof. split; vm_compute; reflexivity. Qed.

End AppFacts.

(* ===================================================================== *)
(** ** Further properties of the runtime fragment                         *)
(* ===================================================================== *)

Module PyMore.
Import Py.

Lemma lstrip_decompose (s : str) :
  exists v, s = v ++ lstrip s /\ Forall (fun c => isspace c = true) v.
Proof.
  induction s as [|x s (v & Hv & Hall)]; cbn [lstrip].
  - exists []. split; [reflexivity | constructor].
  - destruct (isspace x) eqn:Hx.
    + exists (x :: v). split; [cbn [app]; f_equal; exact Hv | constructor; assumption].
    + exists []. split; [reflexivity | constructor].
Qed.

Lemma rstrip_decompose (s : str) :
  exists v, s = rstrip s ++ v /\ Forall (fun c => isspace c = true) v.
Proof.
  unfold rstrip. destruct (lstrip_decompose (rev s)) as (v & Hv & Hall).
  exists (rev v). split.
  - rewrite <- rev_app_distr, <- Hv, rev_involutive. reflexivity.
  - apply list.Forall_forall. intros c Hc. apply list_elem_of_In in Hc.
    rewrite <- in_rev in Hc. rewrite list.Forall_forall in Hall.
    apply Hall, list_elem_of_In, Hc.
Qed.

Lemma length_lstrip (s : str) : (length (lstrip s) <= length s)%nat.
Proof.
  destruct (lstrip_decompose s) as (v & Hv & _).
  rewrite Hv at 2. rewrite length_app. lia.
Qed.

Lemma length_rstrip (s : str) : (length (rstrip s) <= length s)%nat.
Proof.
  destruct (rstrip_decompose s) as (v & Hv & _).
  rewrite Hv at 2. rewrite length_app. lia.
Qed.

Lemma length_strip (s : str) : (length (strip s) <= length s)%nat.
Proof.
  unfold strip. pose proof (length_rstrip (lstrip s)). pose proof (length_lstrip s). lia.
Qed.

Lemma lstrip_fixed (c : N) (rest : str) :
  isspace c = false -> lstrip (c :: rest) = c :: rest.
Proof. intros Hc. cbn [lstrip]. rewrite Hc. reflexivity. Qed.

Lemma lstrip_head (s : str) (c : N) (rest : str) :
  lstrip s = c :: rest -> isspace c = false.
Proof.
  induction s as [|a s IH]; cbn [lstrip]; [discriminate|].
  destruct (isspace a) eqn:Ha; [exact IH|].
  intros [= <- _]. exact Ha.
Qed.

Lemma lstrip_idempotent (s : str) : lstrip (lstrip s) = lstrip s.
Proof.
  destruct (lstrip s) as [|c rest] eqn:Hs; [reflexivity|].
  apply lstrip_fixed. eapply lstrip_head, Hs.
Qed.

Lemma rstrip_idempotent (s : str) : rstrip (rstrip s) = rstrip s.
Proof. unfold rstrip. rewrite rev_involutive, lstrip_idempotent. reflexivity. Qed.

(** Stripping the right end leaves a left end that is already stripped as
    it is. *)
Lemma lstrip_rstrip_lstrip (s : str) : lstrip (rstrip (lstrip s)) = rstrip (lstrip s).
Proof.
  destruct (rstrip (lstrip s)) as [|c rest] eqn:Hr; [reflexivity|].
  apply lstrip_fixed.
  destruct (rstrip_decompose (lstrip s)) as (v & Hv & _).
  rewrite Hr in Hv. cbn [app] in Hv. eapply lstrip_head, Hv.
Qed.

(** [strip] is idempotent. *)
Lemma strip_idempotent (s : str) : strip (strip s) = strip s.
Proof.
  unfold strip. rewrite lstrip_rstrip_lstrip. apply rstrip_idempotent.
Qed.

Lemma lstrip_all_space (v : str) :
  Forall (fun c => isspace c = true) v -> lstrip v = [].
Proof.
  induction 1 as [|c v Hc _ IH]; [reflexivity|]. cbn [lstrip]. rewrite Hc. exact IH.
Qed.

Lemma lstrip_not_nil (s : str) (c : N) :
  c ∈ s -> isspace c = false -> lstrip s <> [].
Proof.
  intros Hin Hc. destruct (lstrip_decompose s) as (v & Hv & Hall).
  intros Hnil. rewrite Hnil, app_nil_r in Hv. subst v.
  rewrite list.Forall_forall in Hall. specialize (Hall c Hin). congruence.
Qed.

(** A text with a code point that is not whitespace does not strip to the
    empty text. *)
Lemma strip_not_nil (s : str) (c : N) :
  c ∈ s -> isspace c = false -> strip s <> [].
Proof.
  intros Hin Hc. unfold strip, rstrip.
  destruct (lstrip_decompose s) as (v & Hv & Hall).
  assert (Hin' : c ∈ lstrip s).
  { rewrite Hv in Hin. apply elem_of_app in Hin as [Hin|Hin]; [|exact Hin].
    rewrite list.Forall_forall in Hall. specialize (Hall c Hin). congruence. }
  intros Hnil. apply (f_equal (@rev N)) in Hnil. rewrite rev_involutive in Hnil.
  cbn [rev] in Hnil. revert Hnil. apply (lstrip_not_nil _ c); [|exact Hc].
  apply list_elem_of_In. rewrite <- in_rev. apply list_elem_of_In, Hin'.
Qed.

Lemma strip_nil_all_space (s : str) :
  strip s = [] -> Forall (fun c => isspace c = true) s.
Proof.
  intros Hs. apply list.Forall_forall. intros c Hin.
  destruct (isspace c) eqn:Hc; [reflexivity|].
  exfalso. exact (strip_not_nil s c Hin Hc Hs).
Qed.

(** *** [split()] *)

Lemma split_ws_from_lstrip (s : str) : split_ws_from [] (lstrip s) = split_ws_from [] s.
Proof.
  induction s as [|c s IH]; [reflexivity|].
  cbn [lstrip]. destruct (isspace c) eqn:Hc; [|reflexivity].
  cbn [split_ws_from]. rewrite Hc. exact IH.
Qed.

Lemma split_ws_from_spaces (cur v : str) :
  Forall (fun c => isspace c = true) v ->
  split_ws_from cur v = split_ws_from cur [].
Proof.
  intros Hall. revert cur. induction Hall as [|c v Hc _ IH]; intros cur; [reflexivity|].
  cbn [split_ws_from]. rewrite Hc.
  destruct cur as [|a cur]; [apply (IH [])|].
  rewrite (IH []). reflexivity.
Qed.

Lemma split_ws_from_app_spaces (cur s v : str) :
  Forall (fun c => isspace c = true) v ->
  split_ws_from cur (s ++ v) = split_ws_from cur s.
Proof.
  intros Hall. revert cur. induction s as [|c s IH]; intros cur.
  - apply split_ws_from_spaces, Hall.
  - cbn [app split_ws_from]. destruct (isspace c); [|apply IH].
    destruct cur; rewrite IH; reflexivity.
Qed.

(** The words of a text are those of the stripped text. *)
Lemma split_ws_strip (s : str) : split_ws (strip s) = split_ws s.
Proof.
  unfold split_ws, strip.
  destruct (rstrip_decompose (lstrip s)) as (v & Hv & Hall).
  rewrite <- (split_ws_from_lstrip s). rewrite Hv at 2.
  rewrite split_ws_from_app_spaces by exact Hall. reflexivity.
Qed.

(** Every word has a code point of its own. *)
Lemma length_split_ws_from (cur s : str) :
  (length (split_ws_from cur s) + (match cur with [] => 1 | _ => 0 end)
   <= length s + 1)%nat.
Proof.
  revert cur. induction s as [|c s IH]; intros cur.
  - destruct cur; cbn; lia.
  - cbn [split_ws_from length]. destruct (isspace c).
    + destruct cur; [specialize (IH []); cbn in IH |- *; lia|].
      specialize (IH []). cbn [length] in IH |- *. lia.
    + specialize (IH (c :: cur)). destruct cur; cbn [length] in IH |- *; lia.
Qed.

Lemma length_split_ws (s : str) : (length (split_ws s) <= length s)%nat.
Proof.
  pose proof (length_split_ws_from [] s) as Hl. cbv iota in Hl. unfold split_ws. lia.
Qed.

(** No word is empty. *)
Lemma split_ws_from_not_nil (cur s : str) :
  Forall (fun word => word <> []) (split_ws_from cur s).
Proof.
  revert cur. induction s as [|c s IH]; intros cur; cbn [split_ws_from].
  - destruct cur as [|a cur]; constructor; [|constructor].
    cbn [rev]. intros Hnil. apply app_eq_nil in Hnil as [_ Hnil]. discriminate.
  - destruct (isspace c); [|apply IH].
    destruct cur as [|a cur]; [apply IH|].
    constructor; [|apply IH].
    cbn [rev]. intros Hnil. apply app_eq_nil in Hnil as [_ Hnil]. discriminate.
Qed.

(** *** [split(sep)] for a separator of one code point *)

Lemma length_split_char (sep : N) (cur s : str) :
  length (split_from [sep] 0 cur s)
  = S (length (List.filter (fun c => sep =? c) s)).
Proof.
  revert cur. induction s as [|c s IH]; intros cur; [reflexivity|].
  cbn [split_from startswith List.filter length Nat.sub].
  rewrite andb_true_r. destruct (sep =? c); cbn [length]; rewrite IH; reflexivity.
Qed.

Lemma length_remove_char (old : N) (s : str) :
  (length (remove_char old s) + length (List.filter (fun c => (c =? old)%N) s))%nat
  = length s.
Proof.
  unfold remove_char. induction s as [|c s IH]; [reflexivity|].
  cbn [List.filter]. destruct (c =? old); cbn [negb length]; lia.
Qed.

End PyMore.

(* ===================================================================== *)
(** ** Further properties of document_processor.py                        *)
(* ===================================================================== *)

Module DocumentProcessorMore.
Import Py Lib DocumentProcessor PyMore.

(** A [try] whose handler raises again, with another exception. *)
Lemma try_reraise {S A} (m : M S A) (wrap : exn -> exn) (s : S) :
  try_except m (fun e => raise (wrap e)) s
  = (match fst (m s) with
     | Raise e => Raise (wrap e)
     | r => r
     end,
     snd (m s)).
Proof. unfold try_except, raise. destruct (m s) as [[a|e|] s']; reflexivity. Qed.

Section WithExternals.
Context `{Externals}.

Definition no_text_message : str :=
  lit "No text content found in PDF. The file might be image-based or corrupted.".

Lemma pdf_pages_loop_blocks (page_num : nat) (pages : list (option str)) (acc : str) :
  pdf_pages_loop page_num pages acc
  = acc ++ concat (imap (fun i page_text => page_block (page_num + i) page_text) pages).
Proof.
  revert page_num acc. induction pages as [|page_text pages IH]; intros page_num acc.
  - cbn. rewrite app_nil_r. reflexivity.
  - cbn [pdf_pages_loop imap concat]. rewrite IH. rewrite Nat.add_0_r.
    assert (Himap : imap (fun i p => page_block (S page_num + i) p) pages
                    = imap ((fun i p => page_block (page_num + i) p) ∘ S) pages).
    { apply imap_ext. intros i p _. cbn. f_equal. lia. }
    rewrite Himap. unfold page_block at 2.
    destruct page_text as [t|]; [destruct (truthy_str t)|];
      cbn [app]; rewrite <- ?app_assoc; reflexivity.
Qed.

Lemma blank_pages_no_blocks (page_num : nat) (pages : list (option str)) :
  forallb is_blank pages = true ->
  concat (imap (fun i page_text => page_block (page_num + i) page_text) pages) = [].
Proof.
  revert page_num. induction pages as [|p pages IH]; intros page_num; [reflexivity|].
  cbn [forallb imap concat]. intros [Hp Hrest]%andb_true_iff.
  assert (Hblock : page_block (page_num + 0) p = []).
  { destruct p as [t|]; [|reflexivity]. cbn in Hp |- *.
    destruct (truthy_str t); [discriminate | reflexivity]. }
  rewrite Hblock. cbn [app].
  rewrite <- (IH (S page_num) Hrest). f_equal. apply imap_ext.
  intros i q _. cbn. f_equal. lia.
Qed.

Lemma some_page_has_dash (page_num : nat) (pages : list (option str)) :
  forallb is_blank pages = false ->
  0x2D ∈ concat (imap (fun i page_text => page_block (page_num + i) page_text) pages).
Proof.
  revert page_num. induction pages as [|p pages IH]; intros page_num; [discriminate|].
  cbn [forallb imap concat]. intros Hex. apply elem_of_app.
  destruct (is_blank p) eqn:Hp.
  - right. cbn [andb] in Hex.
    assert (Himap : imap ((fun i q => page_block (page_num + i) q) ∘ S) pages
                    = imap (fun i q => page_block (S page_num + i) q) pages).
    { apply imap_ext. intros i q _. cbn. f_equal. lia. }
    rewrite Himap. apply IH, Hex.
  - left. destruct p as [t|]; [|discriminate]. cbn in Hp |- *.
    destruct (truthy_str t); [|discriminate].
    right. left.
Qed.

Lemma dash_not_space : isspace 0x2D = false.
Proof. reflexivity. Qed.

(** What [_extract_pdf_text] does, by what the PDF reader finds. *)
Lemma extract_pdf_text_run (f : UploadedFile) :
  fst (_extract_pdf_text f)
  = match pdf_page_texts (drop (pos f) (data f)) with
    | inl e => Raise (Exception (lit "PDF extraction failed: " ++ str_of_exn e))
    | inr pages =>
        if forallb is_blank pages
        then Raise (Exception (lit "PDF extraction failed: " ++ no_text_message))
        else Ok (strip (concat (imap (fun i page_text => page_block (1 + i) page_text)
                                  pages)))
    end.
Proof.
  unfold _extract_pdf_text. rewrite try_reraise. cbn [fst].
  unfold bind, read, lift_outcome, outcome_of.
  destruct (pdf_page_texts (drop (pos f) (data f))) as [e|pages]; [reflexivity|].
  rewrite pdf_pages_loop_blocks. cbn [app].
  destruct (forallb is_blank pages) eqn:Hblank.
  - rewrite (blank_pages_no_blocks 1 pages Hblank). reflexivity.
  - pose proof (some_page_has_dash 1 pages Hblank) as Hdash.
    pose proof (strip_not_nil _ _ Hdash dash_not_space) as Hne.
    destruct (strip _) as [|c rest] eqn:Hs; [congruence | reflexivity].
Qed.

(** X6. [_extract_pdf_text] fails with the no-text message exactly when
    no page has text; as soon as one page has text, even blanks, it
    returns the stripped text with the page markers, each marker carrying
    the position of its page in the PDF. An error of the reader is raised
    again under the prefix of the operation. *)
Theorem extract_pdf_text_outcome (f : UploadedFile) :
  fst (_extract_pdf_text f)
  = match pdf_page_texts (drop (pos f) (data f)) with
    | inl e => Raise (Exception (lit "PDF extraction failed: " ++ str_of_exn e))
    | inr pages =>
        if forallb is_blank pages
        then Raise (Exception
                      (lit "PDF extraction failed: "
                         ++ lit "No text content found in PDF. The file might be image-based or corrupted."))
        else Ok (strip (concat (imap (fun i page_text => page_block (1 + i) page_text)
                                  pages)))
    end
  /\ match pdf_page_texts (drop (pos f) (data f)) with
     | inl _ => True
     | inr pages =>
         if forallb is_blank pages then True
         else strip (concat (imap (fun i page_text => page_block (1 + i) page_text)
                               pages)) <> []
     end.
Proof.
  split; [apply extract_pdf_text_run|].
  destruct (pdf_page_texts _) as [e|pages]; [exact I|].
  destruct (forallb is_blank pages) eqn:Hblank; [exact I|].
  apply (strip_not_nil _ 0x2D); [|reflexivity].
  apply some_page_has_dash, Hblank.
Qed.

Lemma extract_pdf_text_not_rerun (f : UploadedFile) : fst (_extract_pdf_text f) <> Rerun.
Proof.
  rewrite extract_pdf_text_run.
  destruct (pdf_page_texts _) as [e|pages]; [discriminate|].
  destruct (forallb is_blank pages); discriminate.
Qed.

Lemma extract_txt_text_not_rerun (f : UploadedFile) : fst (_extract_txt_text f) <> Rerun.
Proof.
  rewrite DocumentProcessorFacts.extract_txt_text_result. unfold txt_result.
  destruct (truthy_str _); discriminate.
Qed.

Definition extraction_failed_prefix : str := lit "Failed to extract text from document: ".

(** What [extract_text] does, by the extension of the file name. *)
Lemma extract_text_by_extension (f : UploadedFile) :
  fst (extract_text f)
  = match index_int (split (str_lower (name f)) (lit ".")) (-1) with
    | Ok file_extension =>
        let wrapped (r : outcome str) :=
          match r with
          | Raise e => Raise (Exception (extraction_failed_prefix ++ str_of_exn e))
          | r => r
          end in
        if bool_decide (file_extension = lit "pdf") then wrapped (fst (_extract_pdf_text f))
        else if bool_decide (file_extension = lit "txt")
             then wrapped (fst (_extract_txt_text f))
             else Raise (Exception
                           (extraction_failed_prefix
                              ++ lit "Unsupported file format: " ++ file_extension
                              ++ lit ". Please upload PDF or TXT files only."))
    | Raise e => Raise (Exception (extraction_failed_prefix ++ str_of_exn e))
    | Rerun => Rerun
    end.
Proof.
  unfold extract_text. rewrite try_reraise. cbn [fst].
  unfold bind, get, lift_outcome.
  destruct (index_int _ _) as [ext|e|]; [|reflexivity|reflexivity].
  cbv zeta. repeat case_bool_decide; try reflexivity.
  - destruct (fst (_extract_pdf_text f)); reflexivity.
  - destruct (fst (_extract_txt_text f)); reflexivity.
Qed.

(** X1. [extract_text] either returns a text that is not empty and has no
    whitespace at its ends, or raises an [Exception] whose message begins
    with [Failed to extract text from document: ]. *)
Theorem extract_text_outcome (f : UploadedFile) :
  (exists t, fst (extract_text f) = Ok t /\ t <> [] /\ strip t = t)
  \/ (exists msg,
        fst (extract_text f) = Raise (Exception (extraction_failed_prefix ++ msg))).
Proof.
  rewrite extract_text_by_extension.
  pose proof (AIAssistantFacts.index_int_not_rerun
                (split (str_lower (name f)) (lit ".")) (-1)) as Hidx.
  destruct (index_int _ _) as [ext|e|]; [|right; eexists; reflexivity|congruence].
  cbv zeta. case_bool_decide as Hpdf; [|case_bool_decide as Htxt].
  - rewrite extract_pdf_text_run.
    destruct (pdf_page_texts _) as [e|pages]; [right; eexists; reflexivity|].
    destruct (forallb is_blank pages) eqn:Hblank; [right; eexists; reflexivity|].
    left. eexists. split; [reflexivity|]. split; [|apply strip_idempotent].
    apply (strip_not_nil _ 0x2D); [|reflexivity].
    apply some_page_has_dash, Hblank.
  - rewrite DocumentProcessorFacts.extract_txt_text_result. unfold txt_result.
    destruct (strip (snd (first_decoding (data f)))) as [|c rest] eqn:Hs;
      cbn [truthy_str].
    + right. eexists. reflexivity.
    + left. eexists. split; [reflexivity|]. split; [discriminate|].
      rewrite <- Hs. apply strip_idempotent.
  - right. eexists. reflexivity.
Qed.

(** X2. A file whose name does not end in [.pdf] or [.txt] (whatever the
    case of the letters) is refused with a message that names the
    extension, and the file is not read. *)
Theorem unsupported_extension_refused (f : UploadedFile) (file_extension : str) :
  index_int (split (str_lower (name f)) (lit ".")) (-1) = Ok file_extension ->
  file_extension <> lit "pdf" ->
  file_extension <> lit "txt" ->
  extract_text f
  = (Raise (Exception
              (lit "Failed to extract text from document: "
                 ++ lit "Unsupported file format: " ++ file_extension
                 ++ lit ". Please upload PDF or TXT files only.")),
     f).
Proof.
  intros Hext Hpdf Htxt.
  unfold extract_text, try_except, bind, get, lift_outcome. rewrite Hext.
  rewrite !bool_decide_false by assumption. reflexivity.
Qed.

(** X3. The text extraction starts from the beginning of the file
    whatever its read position, while the PDF extraction reads from the
    read position on: a file object that was read before gives the PDF
    reader only what is left of it. *)
Theorem extraction_and_read_position (file_name : str) (bytes : list byte) (p : nat) :
  fst (_extract_txt_text {| name := file_name; data := bytes; pos := p |})
  = fst (_extract_txt_text {| name := file_name; data := bytes; pos := 0 |})
  /\ fst (_extract_pdf_text {| name := file_name; data := bytes; pos := p |})
     = fst (_extract_pdf_text {| name := file_name; data := drop p bytes; pos := 0 |})
  /\ pos (snd (_extract_pdf_text {| name := file_name; data := bytes; pos := p |}))
     = Nat.max p (length bytes).
Proof.
  split; [|split].
  - rewrite !DocumentProcessorFacts.extract_txt_text_result. reflexivity.
  - rewrite !extract_pdf_text_run. cbn [pos data]. rewrite drop_0. reflexivity.
  - unfold _extract_pdf_text. rewrite try_reraise. cbn [snd].
    unfold bind, read, lift_outcome. cbn [pos data name].
    destruct (outcome_of _) as [pages| |]; [|reflexivity|reflexivity].
    destruct (negb _); reflexivity.
Qed.

End WithExternals.

(** X4. The statistics of a text: the number of lines is one more than
    the number of line feeds; the characters without spaces are the
    characters less the U+0020 code points; there are no more words than
    characters; and the reading time is at least 1, and 1 below 400
    words. *)
Theorem document_stats_counts (text : str) :
  let stats := get_document_stats text in
  lines stats = S (length (List.filter (fun c => 0x0A =? c) text))
  /\ (characters_no_spaces stats
      + length (List.filter (fun c => (c =? 0x20)%N) text))%nat
     = characters stats
  /\ (words stats <= characters stats)%nat
  /\ (1 <= estimated_reading_time stats)%nat
  /\ estimated_reading_time stats = Nat.max 1 (words stats / 200)
  /\ (if (words stats <? 400)%nat then estimated_reading_time stats = 1%nat
      else (2 <= estimated_reading_time stats)%nat).
Proof.
  cbv zeta. unfold get_document_stats.
  cbn [lines words characters characters_no_spaces estimated_reading_time].
  split; [apply (length_split_char 0x0A [] text)|].
  split; [apply length_remove_char|].
  split; [apply length_split_ws|].
  split; [lia|]. split; [reflexivity|].
  destruct (Nat.ltb_spec (length (split_ws text)) 400) as [Hlt|Hge].
  - assert (length (split_ws text) / 200 <= 1)%nat
      by (apply Nat.lt_succ_r, Nat.Div0.div_lt_upper_bound; lia).
    lia.
  - assert (2 <= length (split_ws text) / 200)%nat
      by (apply Nat.div_le_lower_bound; lia).
    lia.
Qed.

(** X5. [validate_document_content] gives the same verdict on a text and
    on the text stripped, which is how [extract_text] returns it. *)
Theorem validate_stripped (text : str) :
  validate_document_content (strip text) = validate_document_content text.
Proof.
  unfold validate_document_content.
  rewrite strip_idempotent, split_ws_strip.
  destruct (strip text) as [|c rest] eqn:Hs.
  - cbn [truthy_str negb orb length]. change (0 <? 100)%nat with true.
    rewrite orb_true_r. reflexivity.
  - destruct text as [|a text]; [cbn in Hs; discriminate|]. reflexivity.
Qed.

(** *** Examples *)

Import Doubles.

(** Witness of X2. *)
Lemma unsupported_extension_refused_witness :
  let f := text_file "Notes.DOCX" "hello" in
  index_int (split (lower_ascii (name f)) (lit ".")) (-1) = Ok (lit "docx")
  /\ lit "docx" <> lit "pdf"
  /\ lit "docx" <> lit "txt"
  /\ fst (@extract_text externals f)
     = Raise (Exception (lit "Failed to extract text from document: Unsupported file format: docx. Please upload PDF or TXT files only.")).
Proof.
  intros f.
  assert (Hext : index_int (split (@str_lower externals (name f)) (lit ".")) (-1)
                 = Ok (lit "docx")) by (vm_compute; reflexivity).
  assert (Hpdf : lit "docx" <> lit "pdf") by (intros Heq; vm_compute in Heq; discriminate).
  assert (Htxt : lit "docx" <> lit "txt") by (intros Heq; vm_compute in Heq; discriminate).
  split; [exact Hext|]. split; [exact Hpdf|]. split; [exact Htxt|].
  rewrite (@unsupported_extension_refused externals f (lit "docx") Hext Hpdf Htxt).
  vm_compute. reflexivity.
Defined.

(** A PDF of three pages of which the first has no text: the marker of
    the second page says 2. *)
Example pdf_markers_keep_page_numbers :
  fst (@_extract_pdf_text
         (externals_with_pages [None; Some (lit "Second page"); Some (lit "Third page")])
         (text_file "paper.pdf" "%PDF"))
  = Ok (lit "--- Page 2 ---" ++ nl ++ lit "Second page" ++ nl ++ nl
          ++ lit "--- Page 3 ---" ++ nl ++ lit "Third page").
Proof. vm_compute. reflexivity. Qed.

End DocumentProcessorMore.

(* ===================================================================== *)
(** ** Further properties of ai_assistant.py                              *)
(* ===================================================================== *)

Module AIAssistantMore.
Import Py Lib AIAssistant PyMore.

Lemma fold_left_app_concat {A} (f : A -> str) (l : list A) (acc : str) :
  fold_left (fun context x => context ++ f x) l acc = acc ++ concat (List.map f l).
Proof.
  revert acc. induction l as [|x l IH]; intros acc; cbn [fold_left List.map concat].
  - rewrite app_nil_r. reflexivity.
  - rewrite IH, <- app_assoc. reflexivity.
Qed.

Lemma getitem_str_not_rerun (v : pyval) (k : str) : getitem_str v k <> Rerun.
Proof.
  destruct v; cbn [getitem_str]; try discriminate.
  destruct (dict_lookup d k); discriminate.
Qed.

Lemma slice_to_elem {A} (l : list A) (n : Z) (x : A) : x ∈ slice_to l n -> x ∈ l.
Proof.
  unfold slice_to. destruct (0 <=? n)%Z; intros Hin;
    apply elem_of_take in Hin as (i & Hi & _); eapply list_elem_of_lookup_2, Hi.
Qed.

Section WithRemote.
Context `{Externals}.
Variable remote : list request -> request -> reply.

Definition challenge_failed_prefix : str := lit "Failed to generate challenge questions: ".
Definition evaluation_failed_prefix : str := lit "Failed to evaluate answer: ".

(** What [generate_challenge_questions] does, by the reply of the remote
    model. *)
Lemma generate_challenge_questions_run (document_text : str) (sent : list request) :
  generate_challenge_questions remote document_text sent
  = (match remote sent (challenge_request document_text) with
     | ApiError e => Raise (Exception (challenge_failed_prefix ++ str_of_exn e))
     | Content c =>
         match and_then (loads_content c)
                 (fun result => getitem_str result (lit "questions")) with
         | Raise e => Raise (Exception (challenge_failed_prefix ++ str_of_exn e))
         | r => r
         end
     end,
     sent ++ [challenge_request document_text]).
Proof.
  unfold generate_challenge_questions, try_except, bind, chat_completions_create,
    lift_outcome, raise, and_then.
  destruct (remote sent _) as [e|c]; [reflexivity|].
  destruct (loads_content c) as [result|e|]; [|reflexivity|reflexivity].
  destruct (getitem_str result _); reflexivity.
Qed.

(** What [evaluate_answer] does, by the reply of the remote model. *)
Lemma evaluate_answer_run (q : pyval) (user_answer : str) (expected : pyval)
    (document_text : str) (sent : list request) :
  evaluate_answer remote q user_answer expected document_text sent
  = (match remote sent (evaluation_request q user_answer expected document_text) with
     | ApiError e => Raise (Exception (evaluation_failed_prefix ++ str_of_exn e))
     | Content c =>
         match loads_content c with
         | Raise e => Raise (Exception (evaluation_failed_prefix ++ str_of_exn e))
         | r => r
         end
     end,
     sent ++ [evaluation_request q user_answer expected document_text]).
Proof.
  unfold evaluate_answer, try_except, bind, chat_completions_create,
    lift_outcome, raise, ret.
  destruct (remote sent _) as [e|c]; [reflexivity|].
  destruct (loads_content c); reflexivity.
Qed.

(** X7. When the reply parses to a JSON object, [generate_challenge_questions]
    returns what is stored under [questions], whatever it is and however
    many questions it holds; without that key it fails, and the message
    names the key. *)
Theorem challenge_questions_unchecked (document_text : str) (sent : list request)
    (c : option str) (d : list (pyval * pyval)) :
  remote sent (challenge_request document_text) = Content c ->
  loads_content c = Ok (PDict d) ->
  fst (generate_challenge_questions remote document_text sent)
  = match dict_lookup d (lit "questions") with
    | Some questions => Ok questions
    | None =>
        Raise (Exception (lit "Failed to generate challenge questions: "
                            ++ lit "'" ++ lit "questions" ++ lit "'"))
    end.
Proof.
  intros Hremote Hloads. rewrite generate_challenge_questions_run, Hremote, Hloads.
  cbn [fst and_then getitem_str]. destruct (dict_lookup d _); reflexivity.
Qed.

Lemma evaluation_prompt_parts (q : pyval) (user_answer : str) (expected : pyval)
    (document_text : str) :
  evaluation_prompt q user_answer expected document_text
  = evaluation_prompt_before q user_answer expected
      ++ take (Z.to_nat 6000) document_text ++ evaluation_prompt_after.
Proof.
  unfold evaluation_prompt, evaluation_prompt_before, evaluation_prompt_after.
  rewrite AIAssistantFacts.slice_to_nonneg by lia. rewrite <- !app_assoc. reflexivity.
Qed.

(** X8. The prompt of [evaluate_answer] is the text with the question and
    the two answers, the first 6000 characters of the document, and the
    fixed text after them; what follows the first 6000 characters has no
    part in the request. The operation calls [create] once and returns the
    parsed reply as it is: no key and no range of the score is checked. A
    failed call and a reply that is not JSON raise with the prefix of the
    operation. *)
Theorem evaluate_answer_outcome (q : pyval) (user_answer : str) (expected : pyval)
    (document_text : str) (sent : list request) :
  let req := evaluation_request q user_answer expected document_text in
  user_content req
  = evaluation_prompt_before q user_answer expected
      ++ take (Z.to_nat 6000) document_text ++ evaluation_prompt_after
  /\ req = evaluation_request q user_answer expected (take (Z.to_nat 6000) document_text)
  /\ snd (evaluate_answer remote q user_answer expected document_text sent)
     = sent ++ [req]
  /\ fst (evaluate_answer remote q user_answer expected document_text sent)
     = match remote sent req with
       | ApiError e =>
           Raise (Exception (lit "Failed to evaluate answer: " ++ str_of_exn e))
       | Content c =>
           match loads_content c with
           | Raise e =>
               Raise (Exception (lit "Failed to evaluate answer: " ++ str_of_exn e))
           | parsed => parsed
           end
       end.
Proof.
  cbv zeta. rewrite evaluate_answer_run. cbn [fst snd].
  split; [apply evaluation_prompt_parts|].
  split; [|split; reflexivity].
  unfold evaluation_request, evaluation_prompt.
  rewrite !AIAssistantFacts.slice_to_nonneg by lia.
  rewrite take_take, Nat.min_id. reflexivity.
Qed.

(** X9. The operations have no loop around the call of the model: a call
    of one of the four operations that can fail makes exactly one call of
    [create], whatever comes back, and [extract_relevant_passages] makes
    none when there are at most [num_passages] chunks and one otherwise.
    This counts the calls of [create] the code makes, not what the client
    library does underneath a call. *)
Theorem one_request_per_call (document_text q user_answer : str)
    (history : list qa_entry) (cq expected : pyval) (num_passages : Z)
    (sent : list request) :
  snd (generate_summary remote document_text sent)
  = sent ++ [summary_request document_text]
  /\ snd (answer_question remote q document_text history sent)
     = sent ++ [answer_request q document_text history]
  /\ snd (generate_challenge_questions remote document_text sent)
     = sent ++ [challenge_request document_text]
  /\ snd (evaluate_answer remote cq user_answer expected document_text sent)
     = sent ++ [evaluation_request cq user_answer expected document_text]
  /\ snd (extract_relevant_passages remote q document_text num_passages sent)
     = (if (Z.of_nat (length (chunks_of document_text)) <=? num_passages)%Z
        then sent
        else sent ++ [passages_request q (chunks_of document_text) num_passages]).
Proof.
  rewrite AIAssistantFacts.generate_summary_run, AIAssistantFacts.answer_question_run,
    generate_challenge_questions_run, evaluate_answer_run.
  do 4 (split; [reflexivity|]).
  destruct (Z.leb_spec (Z.of_nat (length (chunks_of document_text))) num_passages)
    as [Hle|Hlt].
  - unfold extract_relevant_passages, try_except, bind, ret.
    destruct (Z.leb_spec (Z.of_nat (length (chunks_of document_text))) num_passages);
      [reflexivity | lia].
  - rewrite AIAssistantFacts.extract_relevant_passages_ranked by exact Hlt.
    reflexivity.
Qed.

(** X10. The four operations that can fail end in one of two ways: with a
    result, or with an [Exception] whose message begins with the prefix of
    the operation, whatever was raised underneath. *)
Theorem failures_carry_the_stage (document_text q user_answer : str)
    (history : list qa_entry) (cq expected : pyval) (sent : list request) :
  ((exists summary, fst (generate_summary remote document_text sent) = Ok summary)
   \/ exists msg, fst (generate_summary remote document_text sent)
                  = Raise (Exception (lit "Failed to generate summary: " ++ msg)))
  /\ ((exists reply, fst (answer_question remote q document_text history sent) = Ok reply)
      \/ exists msg, fst (answer_question remote q document_text history sent)
                     = Raise (Exception (lit "Failed to answer question: " ++ msg)))
  /\ ((exists questions,
         fst (generate_challenge_questions remote document_text sent) = Ok questions)
      \/ exists msg, fst (generate_challenge_questions remote document_text sent)
                     = Raise (Exception
                                (lit "Failed to generate challenge questions: " ++ msg)))
  /\ ((exists evaluation,
         fst (evaluate_answer remote cq user_answer expected document_text sent)
         = Ok evaluation)
      \/ exists msg,
           fst (evaluate_answer remote cq user_answer expected document_text sent)
           = Raise (Exception (lit "Failed to evaluate answer: " ++ msg))).
Proof.
  rewrite AIAssistantFacts.generate_summary_run, AIAssistantFacts.answer_question_run,
    generate_challenge_questions_run, evaluate_answer_run.
  cbn [fst]. repeat split.
  - destruct (remote sent _) as [e|[c|]]; eauto.
  - destruct (remote sent _) as [e|c]; [eauto|].
    pose proof (AIAssistantFacts.loads_content_not_rerun c).
    destruct (loads_content c); [eauto | eauto | congruence].
  - destruct (remote sent _) as [e|c]; [eauto|].
    pose proof (AIAssistantFacts.loads_content_not_rerun c).
    unfold and_then. destruct (loads_content c) as [result| |]; [|eauto|congruence].
    pose proof (getitem_str_not_rerun result (lit "questions")).
    destruct (getitem_str result _); [eauto | eauto | congruence].
  - destruct (remote sent _) as [e|c]; [eauto|].
    pose proof (AIAssistantFacts.loads_content_not_rerun c).
    destruct (loads_content c); [eauto | eauto | congruence].
Qed.

(** X11. The context of the prompt of [answer_question] is empty for an
    empty history; otherwise it is the heading followed by the pairs of
    the last three entries, or of all entries when there are fewer. *)
Theorem context_window (history : list qa_entry) :
  build_context history
  = match history with
    | [] => []
    | _ =>
        lit "Previous conversation:" ++ nl
          ++ concat (List.map qa_lines (drop (length history - 3) history))
    end.
Proof.
  unfold build_context. destruct history as [|e history]; [reflexivity|].
  rewrite fold_left_app_concat. unfold slice_from.
  change (0 <=? -3)%Z with false. cbv iota.
  change (Z.to_nat (- -3)) with 3%nat. rewrite <- app_assoc. reflexivity.
Qed.

(** X12. Whatever the document, the number of passages asked for and the
    remote model, [extract_relevant_passages] does not raise, and every
    passage it returns is a chunk of the document. *)
Theorem passages_total (q document_text : str) (num_passages : Z) (sent : list request) :
  exists passages,
    fst (extract_relevant_passages remote q document_text num_passages sent)
    = Ok passages
    /\ Forall (fun p => p ∈ chunks_of document_text) passages.
Proof.
  destruct (Z.leb_spec (Z.of_nat (length (chunks_of document_text))) num_passages)
    as [Hle|Hlt].
  - exists (chunks_of document_text). split.
    + unfold extract_relevant_passages, try_except, bind, ret.
      destruct (Z.leb_spec (Z.of_nat (length (chunks_of document_text))) num_passages);
        [reflexivity | lia].
    + apply list.Forall_forall. auto.
  - rewrite AIAssistantFacts.extract_relevant_passages_ranked by exact Hlt.
    cbv zeta. cbn [fst]. eexists. split; [reflexivity|].
    assert (Hslice : Forall (fun p => p ∈ chunks_of document_text)
                       (slice_to (chunks_of document_text) num_passages)).
    { apply list.Forall_forall. intros p. apply slice_to_elem. }
    destruct (remote sent _) as [e|c]; [exact Hslice|].
    destruct (rank_reply _ c) as [l| |] eqn:Hl;
      [eapply AIAssistantFacts.rank_reply_elem, Hl | exact Hslice | exact Hslice].
Qed.

(** X13. The prompt of [extract_relevant_passages] shows the model the
    first 20 chunks only, while an index the model returns is looked up
    among all chunks: an index from 20 on, if there is such a chunk, is
    mapped to a chunk the model has not seen. *)
Theorem ranking_beyond_what_was_shown (q : str) (chunks : list str) (num_passages : Z)
    (i : nat) (chunk : str) :
  chunks !! i = Some chunk ->
  passages_request q chunks num_passages
  = passages_request q (take 20 chunks) num_passages
  /\ select_chunks chunks [PInt (Z.of_nat i)] = Ok [chunk].
Proof.
  intros Hi. split.
  - unfold passages_request, passages_prompt.
    rewrite !AIAssistantFacts.slice_to_nonneg by lia.
    change (Z.to_nat 20) with 20%nat. rewrite take_take, Nat.min_id. reflexivity.
  - pose proof (AIAssistantFacts.select_chunks_nonnegative chunks [i]) as Hsel.
    cbn [List.map omap list_omap] in Hsel. rewrite Hi in Hsel. exact Hsel.
Qed.

End WithRemote.

(** X14. In the comprehension that maps indices to chunks, a negative
    index passes the test [i < len(chunks)]: down to minus the number of
    chunks it selects a chunk counted from the end, and below that the
    subscript raises [IndexError]. *)
Theorem negative_index_counts_from_the_end (chunks : list str) (k : nat) :
  (1 <= k)%nat ->
  select_chunks chunks [PInt (- Z.of_nat k)]
  = match (if (k <=? length chunks)%nat then chunks !! (length chunks - k)%nat else None) with
    | Some chunk => Ok [chunk]
    | None => Raise (Builtin IndexError (lit "list index out of range"))
    end.
Proof.
  intros Hk. cbn [select_chunks lt_int getitem_list].
  destruct (Z.ltb_spec (- Z.of_nat k) (Z.of_nat (length chunks))) as [_|Hge]; [|lia].
  unfold index_int.
  destruct (Z.ltb_spec (- Z.of_nat k) 0) as [_|Hge]; [|lia].
  destruct (Nat.leb_spec k (length chunks)) as [Hle|Hgt].
  - destruct (Z.leb_spec 0 (- Z.of_nat k + Z.of_nat (length chunks))) as [_|Hlt]; [|lia].
    destruct (Z.ltb_spec (- Z.of_nat k + Z.of_nat (length chunks))
                (Z.of_nat (length chunks))) as [_|Hge]; [|lia].
    cbn [andb].
    replace (Z.to_nat (- Z.of_nat k + Z.of_nat (length chunks)))
      with (length chunks - k)%nat by lia.
    destruct (chunks !! (length chunks - k)%nat); reflexivity.
  - destruct (Z.leb_spec 0 (- Z.of_nat k + Z.of_nat (length chunks))) as [Hle|_]; [lia|].
    reflexivity.
Qed.

(** *** Examples *)

Import Doubles.

(** Witness of X7: the reply holds one question where three were asked
    for. *)
Lemma challenge_questions_unchecked_witness :
  always (Some reply_one_question) [] (challenge_request (lit "X is Y."))
  = Content (Some reply_one_question)
  /\ @loads_content externals_more (Some reply_one_question)
     = Ok (PDict [(PStr (lit "questions"), PList [one_question])])
  /\ fst (@generate_challenge_questions externals_more
            (always (Some reply_one_question)) (lit "X is Y.") [])
     = Ok (PList [one_question]).
Proof.
  assert (Hloads : @loads_content externals_more (Some reply_one_question)
                   = Ok (PDict [(PStr (lit "questions"), PList [one_question])]))
    by (vm_compute; reflexivity).
  split; [reflexivity|]. split; [exact Hloads|].
  rewrite (@challenge_questions_unchecked externals_more
             (always (Some reply_one_question)) (lit "X is Y.") []
             (Some reply_one_question) _ eq_refl Hloads).
  vm_compute. reflexivity.
Defined.

(** Witness of X13: twenty-two chunks, of which the last is asked for. *)
Lemma ranking_beyond_what_was_shown_witness :
  let chunks := repeat (paragraph "a") 21 ++ [paragraph "z"] in
  chunks !! 21%nat = Some (paragraph "z")
  /\ select_chunks chunks [PInt 21] = Ok [paragraph "z"].
Proof.
  intros chunks.
  assert (Hi : chunks !! 21%nat = Some (paragraph "z")) by reflexivity.
  split; [exact Hi|].
  exact (proj2 (@ranking_beyond_what_was_shown externals (lit "Which letter?") chunks 3
                  21 (paragraph "z") Hi)).
Defined.

(** Witness of X14: of four chunks, the index -1 selects the last and the
    index -5 raises. *)
Lemma negative_index_counts_from_the_end_witness :
  let chunks := [paragraph "a"; paragraph "b"; paragraph "c"; paragraph "d"] in
  (1 <= 1)%nat
  /\ select_chunks chunks [PInt (-1)] = Ok [paragraph "d"]
  /\ select_chunks chunks [PInt (-5)]
     = Raise (Builtin IndexError (lit "list index out of range")).
Proof.
  intros chunks. split; [lia|]. split.
  - exact (negative_index_counts_from_the_end chunks 1 (le_n 1)).
  - exact (negative_index_counts_from_the_end chunks 5 (le_S _ _ (le_S _ _ (le_S _ _ (le_S _ _ (le_n 1)))))).
Defined.

End AIAssistantMore.

(* ===================================================================== *)
(** ** Further properties of utils.py                                     *)
(* ===================================================================== *)

Module UtilsMore.
Import Py St Utils PyMore.

(** X15. A citation that is not empty is shown with a label: the result
    of [format_citation] begins with [Source:] or with [Reference:]. The
    empty citation is replaced by a fixed text. *)
Theorem citation_is_labelled (citation : str) :
  citation <> [] ->
  (startswith (lit "Source:") (format_citation citation) = true
   \/ startswith (lit "Reference:") (format_citation citation) = true)
  /\ format_citation [] = lit "No specific citation available".
Proof.
  intros Hne. split; [|reflexivity].
  unfold format_citation. destruct citation as [|c rest]; [congruence|].
  cbn [truthy_str negb]. cbv zeta.
  destruct (startswith (lit "Source:") (strip (c :: rest))) eqn:Hs;
    [left; exact Hs|].
  destruct (startswith (lit "Reference:") (strip (c :: rest))) eqn:Hr;
    [right; exact Hr|].
  left. reflexivity.
Qed.

(** X16. [truncate_text] returns a text of at most [max_length] characters
    as it is; a longer text is cut to [max_length] characters, stripped,
    and followed by three dots, so that the result has at most
    [max_length + 3] characters. *)
Theorem truncate_text_bound (text : str) (max_length : Z) :
  (0 <= max_length)%Z ->
  (length (truncate_text text max_length) <= Z.to_nat max_length + 3)%nat
  /\ (if (Z.of_nat (length text) <=? max_length)%Z
      then truncate_text text max_length = text
      else truncate_text text max_length
           = strip (take (Z.to_nat max_length) text) ++ lit "...").
Proof.
  intros Hmax. unfold truncate_text.
  destruct (Z.leb_spec (Z.of_nat (length text)) max_length) as [Hle|Hgt].
  - split; [lia | reflexivity].
  - rewrite AIAssistantFacts.slice_to_nonneg by exact Hmax.
    split; [|reflexivity].
    rewrite length_app.
    pose proof (length_strip (take (Z.to_nat max_length) text)) as Hs.
    rewrite length_take in Hs. change (length (lit "...")) with 3%nat. lia.
Qed.

Lemma minute_is_not_minutes (prefix : str) : prefix ++ lit " minutes" <> lit "1 minute".
Proof.
  intros Heq. apply (f_equal (@rev N)) in Heq. rewrite rev_app_distr in Heq.
  vm_compute in Heq. discriminate Heq.
Qed.

Lemma minute_is_not_hours (prefix plural : str) :
  plural = lit "s" \/ plural = [] ->
  prefix ++ lit " hour" ++ plural <> lit "1 minute".
Proof.
  intros [->| ->] Heq; apply (f_equal (@rev N)) in Heq;
    rewrite ?app_nil_r, ?app_assoc, rev_app_distr in Heq;
    vm_compute in Heq; discriminate Heq.
Qed.

(** X17. With a positive reading speed, [get_reading_time_estimate] says
    [1 minute] exactly for the texts of fewer than twice [wpm] words: it
    never reports 0 minutes, and a longer text gets another answer. *)
Theorem reading_time_one_minute (text : str) (wpm : Z) :
  (0 < wpm)%Z ->
  if (Z.of_nat (length (split_ws text)) <? 2 * wpm)%Z
  then get_reading_time_estimate text wpm = Ok (lit "1 minute")
  else exists estimate,
         get_reading_time_estimate text wpm = Ok estimate
         /\ estimate <> lit "1 minute".
Proof.
  intros Hwpm. unfold get_reading_time_estimate. cbv zeta.
  destruct (Z.eqb_spec wpm 0) as [?|_]; [lia|].
  set (word_count := Z.of_nat (length (split_ws text))).
  assert (Hwc : (0 <= word_count)%Z) by (unfold word_count; lia).
  destruct (Z.ltb_spec word_count (2 * wpm)) as [Hlt|Hge].
  - assert (word_count / wpm <= 1)%Z
      by (apply Z.lt_succ_r, Z.div_lt_upper_bound; lia).
    replace (Z.max 1 (word_count / wpm)) with 1%Z by lia. reflexivity.
  - assert (2 <= word_count / wpm)%Z by (apply Z.div_le_lower_bound; lia).
    replace (Z.max 1 (word_count / wpm)) with (word_count / wpm)%Z by lia.
    destruct (Z.eqb_spec (word_count / wpm) 1) as [?|_]; [lia|].
    destruct (word_count / wpm <? 60)%Z.
    + eexists. split; [reflexivity | apply minute_is_not_minutes].
    + destruct (_ mod 60 =? 0)%Z.
      * eexists. split; [reflexivity|]. apply minute_is_not_hours.
        destruct (1 <? _)%Z; auto.
      * eexists. split; [reflexivity|].
        rewrite !app_assoc. apply minute_is_not_minutes.
Qed.

(** The reading time of [get_document_stats] is the number of minutes of
    [get_reading_time_estimate] at 200 words a minute. *)
Lemma reading_time_agrees (text : str) :
  Z.of_nat (DocumentProcessor.estimated_reading_time
              (DocumentProcessor.get_document_stats text))
  = Z.max 1 (Z.of_nat (length (split_ws text)) / 200).
Proof.
  unfold DocumentProcessor.get_document_stats.
  cbn [DocumentProcessor.estimated_reading_time].
  rewrite Nat2Z.inj_max, Nat2Z.inj_div. reflexivity.
Qed.

Section WithUnicode.
Variable isalnum : N -> bool.
Variable str_isupper : str -> bool.

Lemma until_dot_parts (s after : str) (rest : option str) :
  until_dot s = (after, rest) ->
  s = after ++ match rest with Some before => 0x2E :: before | None => [] end.
Proof.
  revert after rest. induction s as [|c s IH]; intros after rest; cbn [until_dot].
  - intros [= <- <-]. reflexivity.
  - destruct (N.eqb_spec c 0x2E) as [->|Hc].
    + intros [= <- <-]. reflexivity.
    + destruct (until_dot s) as [a r]. intros [= <- <-].
      cbn [app]. f_equal. apply IH. reflexivity.
Qed.

(** [rsplit] cuts the text at a dot. *)
Lemma rsplit_dot_parts (s before after : str) :
  rsplit_dot s = Some (before, after) -> s = before ++ 0x2E :: after.
Proof.
  unfold rsplit_dot. destruct (until_dot (rev s)) as [a [b|]] eqn:Hu; [|discriminate].
  intros [= <- <-]. apply until_dot_parts in Hu.
  apply (f_equal (@rev N)) in Hu. rewrite rev_involutive in Hu. rewrite Hu.
  rewrite rev_app_distr. cbn [rev]. rewrite <- app_assoc. reflexivity.
Qed.

Lemma safe_underscore : is_safe isalnum 0x5F = true.
Proof. unfold is_safe. cbn. rewrite !orb_true_r. reflexivity. Qed.

Lemma safe_dot : is_safe isalnum 0x2E = true.
Proof. unfold is_safe. cbn. rewrite !orb_true_r. reflexivity. Qed.

Lemma sanitized_safe (filename : str) :
  Forall (fun c => is_safe isalnum c = true)
    (List.map (fun c => if is_safe isalnum c then c else 0x5F) filename).
Proof.
  induction filename as [|c filename IH]; cbn [List.map]; constructor; [|exact IH].
  destruct (is_safe isalnum c) eqn:Hc; [exact Hc | apply safe_underscore].
Qed.

(** X18. Every character of a sanitized file name is a letter or digit,
    an underscore, a hyphen or a dot; the name is not longer than the
    one given, and a name of at most 50 characters keeps its length, with
    every other character replaced by an underscore. *)
Theorem sanitize_filename_safe (filename : str) :
  let sanitized := sanitize_filename isalnum filename in
  Forall (fun c => is_safe isalnum c = true) sanitized
  /\ (length sanitized <= length filename)%nat
  /\ (if (50 <? length filename)%nat then True
      else sanitized = List.map (fun c => if is_safe isalnum c then c else 0x5F) filename).
Proof.
  cbv zeta. unfold sanitize_filename.
  set (sub := List.map (fun c => if is_safe isalnum c then c else 0x5F) filename).
  assert (Hlen : length sub = length filename) by apply length_map.
  pose proof (sanitized_safe filename) as Hsafe. fold sub in Hsafe.
  rewrite Hlen.
  destruct (Nat.ltb_spec 50 (length filename)) as [Hlong|Hshort];
    [|split; [exact Hsafe|]; split; [lia | reflexivity]].
  destruct (rsplit_dot sub) as [[name ext]|] eqn:Hsplit.
  - apply rsplit_dot_parts in Hsplit.
    rewrite Hsplit in Hsafe. apply Forall_app in Hsafe as [Hname Hext].
    apply Forall_cons in Hext as [_ Hext].
    assert (Hl : length filename = (length name + S (length ext))%nat)
      by (rewrite <- Hlen, Hsplit, length_app; reflexivity).
    split; [|split; [|exact I]].
    + apply Forall_app. split; [apply Forall_take, Hname|].
      destruct ext as [|e ext]; cbn [truthy_str]; [constructor|].
      apply Forall_app. split; [|exact Hext].
      constructor; [apply safe_dot | constructor].
    + rewrite length_app, length_take. change (lit ".") with [0x2E].
      destruct ext as [|e ext]; cbn [truthy_str length app] in *; lia.
  - split; [|split; [|exact I]].
    + rewrite app_nil_r. apply Forall_take, Hsafe.
    + rewrite app_nil_r, length_take. lia.
Qed.

(** *** extract_key_phrases *)

Definition well_formed (key_phrases : list str) : Prop :=
  NoDup key_phrases /\ Forall (fun phrase => (5 < length phrase)%nat) key_phrases.

Lemma words_loop_well_formed (num_phrases : Z) (words : list str) (i : nat)
    (remaining key_phrases : list str) :
  well_formed key_phrases ->
  well_formed (words_loop str_isupper num_phrases words i remaining key_phrases).
Proof.
  revert i key_phrases. induction remaining as [|word rest IH]; intros i key_phrases Hwf;
    cbn [words_loop]; [exact Hwf|].
  destruct (is_key_word str_isupper word); [|apply IH, Hwf].
  cbv zeta.
  set (phrase := join (lit " ") _).
  assert (Hwf' : well_formed
                   (if (5 <? length phrase)%nat
                       && negb (bool_decide (phrase ∈ key_phrases))
                    then key_phrases ++ [phrase] else key_phrases)).
  { destruct (Nat.ltb_spec 5 (length phrase)) as [Hlen|_]; [|exact Hwf].
    cbn [andb]. case_bool_decide as Hin; [exact Hwf|]. cbn [negb].
    destruct Hwf as [Hnd Hall]. split.
    - apply NoDup_app. split; [exact Hnd|]. split; [|apply NoDup_singleton].
      intros x Hx Hx'. apply list_elem_of_singleton in Hx'. subst x. exact (Hin Hx).
    - apply Forall_app. split; [exact Hall|]. constructor; [exact Hlen | constructor]. }
  destruct (num_phrases <=? _)%Z; [exact Hwf' | apply IH, Hwf'].
Qed.

Lemma sentences_loop_well_formed (num_phrases : Z) (sentences key_phrases : list str) :
  well_formed key_phrases ->
  well_formed (sentences_loop str_isupper num_phrases sentences key_phrases).
Proof.
  revert key_phrases. induction sentences as [|sentence rest IH]; intros key_phrases Hwf;
    cbn [sentences_loop]; [exact Hwf|].
  cbv zeta.
  pose proof (words_loop_well_formed num_phrases (split_ws sentence) 0
                (split_ws sentence) key_phrases Hwf) as Hwf'.
  destruct (num_phrases <=? _)%Z; [exact Hwf' | apply IH, Hwf'].
Qed.

(** X19. [extract_key_phrases] returns at most [num_phrases] phrases, no
    phrase twice, and every phrase has more than 5 characters. *)
Theorem key_phrases_distinct_and_bounded (text : str) (num_phrases : Z) :
  (0 <= num_phrases)%Z ->
  let key_phrases := extract_key_phrases str_isupper text num_phrases in
  (Z.of_nat (length key_phrases) <= num_phrases)%Z
  /\ NoDup key_phrases
  /\ Forall (fun phrase => (5 < length phrase)%nat) key_phrases.
Proof.
  intros Hnum. cbv zeta. unfold extract_key_phrases.
  set (found := sentences_loop str_isupper num_phrases _ []).
  assert (Hwf : well_formed found).
  { apply sentences_loop_well_formed. split; constructor. }
  destruct Hwf as [Hnd Hall].
  rewrite AIAssistantFacts.slice_to_nonneg by exact Hnum.
  split; [rewrite length_take; lia|].
  split; [exact (sublist_NoDup _ _ Hnd (sublist_take _ _))|].
  apply Forall_take, Hall.
Qed.

End WithUnicode.

(** *** Examples *)

Import Doubles.

(** Witness of X15. *)
Lemma citation_is_labelled_witness :
  lit "  page 3 " <> []
  /\ format_citation (lit "  page 3 ") = lit "Source: page 3"
  /\ (startswith (lit "Source:") (format_citation (lit "  page 3 ")) = true
      \/ startswith (lit "Reference:") (format_citation (lit "  page 3 ")) = true).
Proof.
  assert (Hne : lit "  page 3 " <> []) by (vm_compute; discriminate).
  split; [exact Hne|]. split; [vm_compute; reflexivity|].
  exact (proj1 (citation_is_labelled (lit "  page 3 ") Hne)).
Defined.

(** Witness of X16: the cut falls after a blank, which is stripped. *)
Lemma truncate_text_bound_witness :
  (0 <= 6)%Z
  /\ truncate_text (lit "hello world") 6 = lit "hello..."
  /\ (length (truncate_text (lit "hello world") 6) <= Z.to_nat 6 + 3)%nat.
Proof.
  assert (Hmax : (0 <= 6)%Z) by lia.
  split; [exact Hmax|]. split; [vm_compute; reflexivity|].
  exact (proj1 (truncate_text_bound (lit "hello world") 6 Hmax)).
Defined.

(** Witness of X17. *)
Lemma reading_time_one_minute_witness :
  (0 < 200)%Z /\ get_reading_time_estimate (lit "a few words only") 200 = Ok (lit "1 minute").
Proof.
  assert (Hwpm : (0 < 200)%Z) by lia.
  split; [exact Hwpm|].
  pose proof (reading_time_one_minute (lit "a few words only") 200 Hwpm) as Hone.
  change (Z.of_nat (length (split_ws (lit "a few words only"))) <? 2 * 200)%Z
    with true in Hone.
  exact Hone.
Defined.

(** Witness of X19. *)
Lemma key_phrases_distinct_and_bounded_witness :
  let text := lit "The Quantum Theory of fields. Quantum Theory of fields again! Is Paris nice?" in
  (0 <= 2)%Z
  /\ extract_key_phrases isupper_ascii text 2
     = [lit "Quantum Theory of"; lit "Theory of fields"]
  /\ NoDup (extract_key_phrases isupper_ascii text 2).
Proof.
  intros text. assert (Hnum : (0 <= 2)%Z) by lia.
  split; [exact Hnum|]. split; [vm_compute; reflexivity|].
  exact (proj1 (proj2 (key_phrases_distinct_and_bounded isupper_ascii text 2 Hnum))).
Defined.

(** A long name keeps its whole extension, so that the result can be
    longer than 50 characters. *)
Example sanitize_keeps_extension :
  sanitize_filename isalnum_ascii
    (lit "my report (final).a_very_long_extension_of_more_than_fifty_characters_in_all")
  = lit "my_report__final_.a_very_long_extension_of_more_than_fifty_characters_in_all".
Proof. vm_compute. reflexivity. Qed.

End UtilsMore.

(* ===================================================================== *)
(** ** Further properties of app.py                                       *)
(* ===================================================================== *)

Module AppMore.
Import Py Lib St Utils App.
Import DocumentProcessor(UploadedFile, name, data, pos, extract_text).
Import AIAssistant.

(** X20. The initialisation at the top of the script keeps every value
    that is stored and gives every missing key its initial value; after
    [clear_session_state] it gives the initial session, whatever was
    stored before. *)
Theorem initialisation_fills_missing_keys (w : world) :
  let ss := session w in
  let ss' := session (snd (initialize_session_state w)) in
  document_content ss' = Some (default [] (document_content ss))
  /\ document_summary ss' = Some (default [] (document_summary ss))
  /\ document_name ss' = Some (default [] (document_name ss))
  /\ interaction_mode ss' = Some (default None (interaction_mode ss))
  /\ challenge_questions ss' = Some (default (PList []) (challenge_questions ss))
  /\ challenge_answers ss' = Some (default ∅ (challenge_answers ss))
  /\ qa_history ss' = Some (default [] (qa_history ss))
  /\ session (snd (initialize_session_state (snd (clear_session_state w))))
     = initial_session.
Proof.
  destruct w as [[[?|] [?|] [?|] [?|] [?|] [?|] [?|]] sent shown];
    repeat split; reflexivity.
Qed.

Section WithRemote.
Context `{Externals}.
Variable remote : list request -> request -> reply.

(** X21. With a document in the session, the button that clears it
    removes every key and runs the script again. *)
Theorem clear_document_clears_all (w : world) (content current : str) :
  document_content (session w) = Some content ->
  content <> [] ->
  document_name (session w) = Some current ->
  document_info_block true w = (Rerun, with_session no_keys w)
  /\ document_info_block false w = (Ok tt, w).
Proof.
  intros Hcontent Hne Hname.
  unfold document_info_block, bind, session_attr. rewrite Hcontent.
  destruct content as [|c content]; [congruence|]. cbn [truthy_str].
  rewrite Hname, Hcontent. split; [|reflexivity].
  unfold clear_session_state, session_modify, modify, st_rerun, with_session.
  cbn [session sent shown]. rewrite AppFacts.clear_keys_all. reflexivity.
Qed.

(** X22. When a file with a new name is uploaded and the extraction of
    its text fails, the error is shown and then the run of the script
    breaks off: the document information reads the key
    [document_content], which [clear_session_state] removed and nothing
    stored again, and the read raises [AttributeError]. *)
Theorem failed_extraction_breaks_the_run (f : UploadedFile) (current : str) (w : world)
    (e : exn) (clear_document : bool) :
  document_name (session w) = Some current ->
  name f <> current ->
  fst (extract_text f) = Raise e ->
  sidebar remote (Some f) clear_document w
  = (Raise (Builtin AttributeError
              (lit "st.session_state has no attribute " ++ lit "document_content")),
     {| session := named_only (name f);
        sent := sent w;
        shown := shown w
          ++ [error (lit "Error processing document: " ++ str_of_exn e)] |}).
Proof.
  intros Hcur Hname Hfail. unfold sidebar, bind.
  rewrite (AppFacts.upload_block_new_name remote f current w Hcur Hname).
  rewrite AppFacts.process_document_run, Hfail.
  reflexivity.
Qed.

(** X23. A reply that is JSON with the keys [answer] and [citation]
    appends one entry to the history, made of the question as typed and
    of the two values as they are; what was in the history stays, in its
    order, and the script is run again. *)
Theorem answer_is_appended (w : world) (q content : str) (history : list qa_entry)
    (c : option str) (v a cit : pyval) :
  document_content (session w) = Some content ->
  qa_history (session w) = Some history ->
  truthy_str q = true ->
  remote (sent w) (answer_request q content history) = Content c ->
  loads_content c = Ok v ->
  getitem_str v (lit "answer") = Ok a ->
  getitem_str v (lit "citation") = Ok cit ->
  submit_question_block remote true q w
  = (Rerun,
     {| session :=
          set_qa_history
            (Some (history ++ [ {| question := q; answer := a; citation := cit |} ]))
            (session w);
        sent := sent w ++ [answer_request q content history];
        shown := shown w |}).
Proof.
  intros Hcontent Hhistory Hq Hremote Hloads Ha Hcit.
  unfold submit_question_block. rewrite Hq. cbn [andb].
  unfold try_except, bind, session_attr. rewrite Hcontent, Hhistory.
  unfold assistant, zoom.
  rewrite AIAssistantFacts.answer_question_run, Hremote, Hloads.
  unfold with_sent, lift_outcome. cbn [session sent shown]. rewrite Hhistory, Ha, Hcit.
  reflexivity.
Qed.

(** X24. The history is append-only: whatever the remote model does, the
    question block does not raise, and it either ends normally with the
    session state as it was, or runs the script again with exactly one
    entry for the question added at the end of the history. *)
Theorem history_is_append_only (w : world) (clicked : bool) (q content : str)
    (history : list qa_entry) :
  document_content (session w) = Some content ->
  qa_history (session w) = Some history ->
  let r := submit_question_block remote clicked q w in
  (fst r = Ok tt /\ session (snd r) = session w)
  \/ (fst r = Rerun
      /\ exists a cit,
           session (snd r)
           = set_qa_history
               (Some (history ++ [ {| question := q; answer := a; citation := cit |} ]))
               (session w)).
Proof.
  intros Hcontent Hhistory. cbv zeta.
  unfold submit_question_block.
  destruct (clicked && truthy_str q); [|left; split; reflexivity].
  unfold try_except, bind, session_attr. rewrite Hcontent, Hhistory.
  unfold assistant, zoom.
  rewrite AIAssistantFacts.answer_question_run.
  unfold with_sent, lift_outcome, st_error, st_show, modify. cbn [session sent shown].
  destruct (remote (sent w) _) as [e|c]; [left; split; reflexivity|].
  pose proof (AIAssistantFacts.loads_content_not_rerun c) as Hnr.
  destruct (loads_content c) as [v|e|]; [|left; split; reflexivity|congruence].
  rewrite Hhistory.
  pose proof (AIAssistantMore.getitem_str_not_rerun v (lit "answer")) as Hna.
  destruct (getitem_str v (lit "answer")) as [a|e|];
    [|left; split; reflexivity|congruence].
  pose proof (AIAssistantMore.getitem_str_not_rerun v (lit "citation")) as Hnc.
  destruct (getitem_str v (lit "citation")) as [cit|e|];
    [|left; split; reflexivity|congruence].
  right. split; [reflexivity|]. exists a, cit. reflexivity.
Qed.

(** X25. The button of the challenge mode sets the mode and runs the
    script again in every case. With questions stored it sends no
    request; with none stored it asks for questions once, stores them if
    the call succeeds, and otherwise shows the error and leaves the
    stored questions as they are. *)
Theorem challenge_mode_generates_once (w : world) (stored : pyval) (content : str) :
  challenge_questions (session w) = Some stored ->
  document_content (session w) = Some content ->
  let in_mode := set_interaction_mode (Some (Some (lit "challenge_me"))) (session w) in
  challenge_me_block remote true w
  = (Rerun,
     if truthy stored then with_session in_mode w
     else
       match generate_challenge_questions remote content (sent w) with
       | (Ok questions, sent') =>
           {| session := set_challenge_questions (Some questions) in_mode;
              sent := sent';
              shown := shown w |}
       | (Raise e, sent') =>
           {| session := in_mode;
              sent := sent';
              shown := shown w
                ++ [error (lit "Error generating questions: " ++ str_of_exn e)] |}
       | (Rerun, sent') => {| session := in_mode; sent := sent'; shown := shown w |}
       end).
Proof.
  intros Hstored Hcontent. cbv zeta.
  unfold challenge_me_block, bind, session_modify, modify, session_attr, with_session.
  cbn [session sent shown challenge_questions set_interaction_mode]. rewrite Hstored.
  destruct (truthy stored); cbn [negb]; [reflexivity|].
  unfold try_except, bind, session_attr.
  cbn [session sent shown document_content set_interaction_mode]. rewrite Hcontent.
  unfold assistant, zoom, with_sent. cbn [session sent shown].
  destruct (generate_challenge_questions remote content (sent w)) as [[qs|e|] sent'];
    reflexivity.
Qed.

(** X26. Asking for new questions empties the stored questions and
    answers before the call: when the call fails, the error is shown, the
    script is not run again, and the session is left without questions
    and without answers. *)
Theorem failed_regeneration_loses_questions (w : world) (content : str) (e : exn) :
  document_content (session w) = Some content ->
  fst (generate_challenge_questions remote content (sent w)) = Raise e ->
  let w' := snd (regenerate_block remote true w) in
  fst (regenerate_block remote true w) = Ok tt
  /\ challenge_questions (session w') = Some (PList [])
  /\ challenge_answers (session w') = Some ∅
  /\ shown w' = shown w ++ [error (lit "Error generating questions: " ++ str_of_exn e)].
Proof.
  intros Hcontent Hfail. cbv zeta.
  unfold regenerate_block, bind, session_modify, modify, with_session, try_except,
    session_attr.
  cbn [session sent shown document_content set_challenge_questions
         set_challenge_answers].
  rewrite Hcontent. unfold assistant, zoom, with_sent. cbn [session sent shown].
  destruct (generate_challenge_questions remote content (sent w)) as [r sent'].
  cbn [fst] in Hfail. subst r. repeat split; reflexivity.
Qed.

(** X27. An evaluated answer is stored under the index of its question:
    it replaces an earlier answer to that question, the answers to the
    other questions stay as they are, and the script is run again. *)
Theorem evaluated_answer_is_stored (w : world) (i : nat) (question_data : pyval)
    (answer_text content : str) (q expected evaluation : pyval)
    (answers : gmap nat challenge_answer) :
  truthy_str answer_text = true ->
  getitem_str question_data (lit "question") = Ok q ->
  getitem_str question_data (lit "expected_answer") = Ok expected ->
  document_content (session w) = Some content ->
  challenge_answers (session w) = Some answers ->
  fst (evaluate_answer remote q answer_text expected content (sent w)) = Ok evaluation ->
  let r := submit_answer_block remote i question_data true answer_text in
  exists answers',
    fst (r w) = Rerun
    /\ challenge_answers (session (snd (r w))) = Some answers'
    /\ answers' !! i
       = Some {| user_answer := answer_text; evaluation := evaluation |}
    /\ (forall j, j <> i -> answers' !! j = answers !! j)
    /\ qa_history (session (snd (r w))) = qa_history (session w)
    /\ challenge_questions (session (snd (r w))) = challenge_questions (session w).
Proof.
  intros Htext Hq Hexp Hcontent Hanswers Heval. cbv zeta.
  unfold submit_answer_block. rewrite Htext. cbn [andb].
  unfold try_except, bind, lift_outcome, session_attr. rewrite Hq, Hexp, Hcontent.
  unfold assistant, zoom, with_sent.
  destruct (evaluate_answer remote q answer_text expected content (sent w))
    as [r sent'].
  cbn [fst] in Heval. subst r. cbn [session sent shown]. rewrite Hanswers.
  eexists. split; [reflexivity|]. split; [reflexivity|].
  split; [apply lookup_insert_eq|].
  split; [intros j Hj; apply lookup_insert_ne; congruence|].
  split; reflexivity.
Qed.

(** X28. A failed evaluation shows the error and leaves the session state
    as it was, the stored answers included. *)
Theorem failed_evaluation_keeps_answers (w : world) (i : nat) (question_data : pyval)
    (answer_text content : str) (q expected : pyval) (e : exn) :
  truthy_str answer_text = true ->
  getitem_str question_data (lit "question") = Ok q ->
  getitem_str question_data (lit "expected_answer") = Ok expected ->
  document_content (session w) = Some content ->
  fst (evaluate_answer remote q answer_text expected content (sent w)) = Raise e ->
  let r := submit_answer_block remote i question_data true answer_text w in
  fst r = Ok tt
  /\ session (snd r) = session w
  /\ shown (snd r)
     = shown w ++ [error (lit "Error evaluating answer: " ++ str_of_exn e)].
Proof.
  intros Htext Hq Hexp Hcontent Heval. cbv zeta.
  unfold submit_answer_block. rewrite Htext. cbn [andb].
  unfold try_except, bind, lift_outcome, session_attr. rewrite Hq, Hexp, Hcontent.
  unfold assistant, zoom, with_sent.
  destruct (evaluate_answer remote q answer_text expected content (sent w))
    as [r sent'].
  cbn [fst] in Heval. subst r. repeat split; reflexivity.
Qed.

End WithRemote.

(** *** Examples *)

Import Doubles.

(** Witness of X21. *)
Lemma clear_document_clears_all_witness :
  document_content (session one_answer_world) = Some (lit "X is Y. The rest is about Z.")
  /\ lit "X is Y. The rest is about Z." <> []
  /\ document_name (session one_answer_world) = Some (lit "paper.txt")
  /\ document_info_block true one_answer_world
     = (Rerun, with_session no_keys one_answer_world).
Proof.
  assert (Hne : lit "X is Y. The rest is about Z." <> []) by (vm_compute; discriminate).
  split; [reflexivity|]. split; [exact Hne|]. split; [reflexivity|].
  exact (proj1 (clear_document_clears_all one_answer_world _ _ eq_refl Hne eq_refl)).
Defined.

(** Witness of X22: a text file of blanks is uploaded in the first run. *)
Lemma failed_extraction_breaks_the_run_witness :
  let f := text_file "paper.txt" "   " in
  let e := Exception (lit "Failed to extract text from document: TXT extraction failed: The text file appears to be empty.") in
  document_name (session fresh_world) = Some []
  /\ name f <> []
  /\ fst (@extract_text externals f) = Raise e
  /\ fst (@sidebar externals unreachable_api (Some f) false fresh_world)
     = Raise (Builtin AttributeError
                (lit "st.session_state has no attribute document_content")).
Proof.
  intros f e.
  assert (Hname : name f <> []) by (vm_compute; discriminate).
  assert (Hfail : fst (@extract_text externals f) = Raise e) by (vm_compute; reflexivity).
  split; [reflexivity|]. split; [exact Hname|]. split; [exact Hfail|].
  rewrite (@failed_extraction_breaks_the_run externals unreachable_api f [] fresh_world
             e false eq_refl Hname Hfail).
  vm_compute. reflexivity.
Defined.

(** Witness of X23. *)
Lemma answer_is_appended_witness :
  let q := lit "What is X?" in
  let content := lit "X is Y. The rest is about Z." in
  let history := [entry "What is X?" "X is Y" "para 2"] in
  truthy_str q = true
  /\ @loads_content externals (Some reply_full)
     = Ok (PDict [(PStr (lit "answer"), PStr (lit "X is Y"));
                  (PStr (lit "citation"), PStr (lit "para 2"));
                  (PStr (lit "confidence"), PStr (lit "high"))])
  /\ qa_history
       (session (snd (@submit_question_block externals (always (Some reply_full))
                        true q one_answer_world)))
     = Some (history ++ [entry "What is X?" "X is Y" "para 2"]).
Proof.
  intros q content history.
  assert (Hloads : @loads_content externals (Some reply_full)
                   = Ok (PDict [(PStr (lit "answer"), PStr (lit "X is Y"));
                                (PStr (lit "citation"), PStr (lit "para 2"));
                                (PStr (lit "confidence"), PStr (lit "high"))]))
    by (vm_compute; reflexivity).
  split; [reflexivity|]. split; [exact Hloads|].
  rewrite (@answer_is_appended externals (always (Some reply_full)) one_answer_world
             q content history (Some reply_full) _
             (PStr (lit "X is Y")) (PStr (lit "para 2"))
             eq_refl eq_refl eq_refl eq_refl Hloads eq_refl eq_refl).
  reflexivity.
Defined.

(** Witness of X24: the model cannot be reached. *)
Lemma history_is_append_only_witness :
  let r := @submit_question_block externals unreachable_api true (lit "What is Z?")
             one_answer_world in
  document_content (session one_answer_world) = Some (lit "X is Y. The rest is about Z.")
  /\ qa_history (session one_answer_world) = Some [entry "What is X?" "X is Y" "para 2"]
  /\ ((fst r = Ok tt /\ session (snd r) = session one_answer_world)
      \/ (fst r = Rerun
          /\ exists a cit,
               session (snd r)
               = set_qa_history
                   (Some ([entry "What is X?" "X is Y" "para 2"]
                            ++ [ {| question := lit "What is Z?";
                                    answer := a; citation := cit |} ]))
                   (session one_answer_world))).
Proof.
  intros r. split; [reflexivity|]. split; [reflexivity|].
  exact (@history_is_append_only externals unreachable_api one_answer_world true
           (lit "What is Z?") _ _ eq_refl eq_refl).
Defined.

(** Witness of X25: no question is stored and the model cannot be
    reached. *)
Lemma challenge_mode_generates_once_witness :
  challenge_questions (session one_answer_world) = Some (PList [])
  /\ document_content (session one_answer_world)
     = Some (lit "X is Y. The rest is about Z.")
  /\ fst (@challenge_me_block externals unreachable_api true one_answer_world) = Rerun
  /\ challenge_questions
       (session (snd (@challenge_me_block externals unreachable_api true
                        one_answer_world)))
     = Some (PList []).
Proof.
  split; [reflexivity|]. split; [reflexivity|].
  rewrite (@challenge_mode_generates_once externals unreachable_api one_answer_world
             _ _ eq_refl eq_refl).
  split; vm_compute; reflexivity.
Defined.

(** Witness of X26: a question and an answer are stored, and the model
    cannot be reached. *)
Lemma failed_regeneration_loses_questions_witness :
  let e := Exception (lit "Failed to generate challenge questions: Connection error.") in
  document_content (session challenge_world) = Some (lit "X is Y. The rest is about Z.")
  /\ fst (@generate_challenge_questions externals unreachable_api
            (lit "X is Y. The rest is about Z.") (sent challenge_world))
     = Raise e
  /\ challenge_questions (session challenge_world) = Some (PList [one_question])
  /\ challenge_questions
       (session (snd (@regenerate_block externals unreachable_api true challenge_world)))
     = Some (PList [])
  /\ challenge_answers
       (session (snd (@regenerate_block externals unreachable_api true challenge_world)))
     = Some ∅.
Proof.
  intros e.
  assert (Hfail : fst (@generate_challenge_questions externals unreachable_api
                         (lit "X is Y. The rest is about Z.") (sent challenge_world))
                  = Raise e) by (vm_compute; reflexivity).
  destruct (@failed_regeneration_loses_questions externals unreachable_api
              challenge_world _ e eq_refl Hfail) as (_ & Hq & Ha & _).
  split; [reflexivity|]. split; [exact Hfail|]. split; [reflexivity|].
  split; assumption.
Defined.

(** Witness of X27: the answer to the question of index 1 is replaced,
    with an evaluation whose score is 250. *)
Lemma evaluated_answer_is_stored_witness :
  let r := @submit_answer_block externals_more (always (Some reply_evaluation))
             1 one_question true (lit "A new answer.") challenge_world in
  truthy_str (lit "A new answer.") = true
  /\ getitem_str one_question (lit "question") = Ok (PStr (lit "Why X?"))
  /\ getitem_str one_question (lit "expected_answer") = Ok (PStr (lit "Because Y."))
  /\ fst (@evaluate_answer externals_more (always (Some reply_evaluation))
            (PStr (lit "Why X?")) (lit "A new answer.") (PStr (lit "Because Y."))
            (lit "X is Y. The rest is about Z.") (sent challenge_world))
     = Ok evaluation_250
  /\ exists answers',
       challenge_answers (session (snd r)) = Some answers'
       /\ answers' !! 1%nat
          = Some {| user_answer := lit "A new answer."; evaluation := evaluation_250 |}.
Proof.
  intros r.
  assert (Heval : fst (@evaluate_answer externals_more (always (Some reply_evaluation))
                         (PStr (lit "Why X?")) (lit "A new answer.")
                         (PStr (lit "Because Y."))
                         (lit "X is Y. The rest is about Z.") (sent challenge_world))
                  = Ok evaluation_250) by (vm_compute; reflexivity).
  destruct (@evaluated_answer_is_stored externals_more (always (Some reply_evaluation))
              challenge_world 1 one_question (lit "A new answer.") _ _ _ _ _
              eq_refl eq_refl eq_refl eq_refl eq_refl Heval)
    as (answers' & _ & Hstored & Hlookup & _).
  split; [reflexivity|]. split; [reflexivity|]. split; [reflexivity|].
  split; [exact Heval|]. exists answers'. split; assumption.
Defined.

(** Witness of X28: the model cannot be reached. *)
Lemma failed_evaluation_keeps_answers_witness :
  let e := Exception (lit "Failed to evaluate answer: Connection error.") in
  let r := @submit_answer_block externals unreachable_api 1 one_question true
             (lit "A new answer.") challenge_world in
  truthy_str (lit "A new answer.") = true
  /\ fst (@evaluate_answer externals unreachable_api
            (PStr (lit "Why X?")) (lit "A new answer.") (PStr (lit "Because Y."))
            (lit "X is Y. The rest is about Z.") (sent challenge_world))
     = Raise e
  /\ fst r = Ok tt
  /\ session (snd r) = session challenge_world.
Proof.
  intros e r.
  assert (Heval : fst (@evaluate_answer externals unreachable_api
                         (PStr (lit "Why X?")) (lit "A new answer.")
                         (PStr (lit "Because Y."))
                         (lit "X is Y. The rest is about Z.") (sent challenge_world))
                  = Raise e) by (vm_compute; reflexivity).
  destruct (@failed_evaluation_keeps_answers externals unreachable_api challenge_world
              1 one_question (lit "A new answer.") _ _ _ e
              eq_refl eq_refl eq_refl eq_refl Heval) as (Hok & Hsame & _).
  split; [reflexivity|]. split; [exact Heval|]. split; assumption.
Defined.

End AppMore.
